(** * Image service: a shallow embedding of ImageProcess_Service/image_service

    The package turns one image file into a one-page [Document]:
    validate -> load -> optimize -> save -> thumbnail -> metadata -> Document.
    Python values are modelled as follows.
    - A Python [str] is a list of Unicode code points ([pystr]); a literal is
      written [lit "..."].
    - Python floats are IEEE binary64; they are modelled by Rocq's primitive
      [float], whose operations are the correctly rounded IEEE operations.
    - Exceptions are the [Err] branch of [Result]; the file system, the clock
      and the log of performed steps are threaded through a state monad [M]. *)

From Stdlib Require Import String Ascii.
From Stdlib Require Import ZArith List Bool Lia.
From Stdlib Require Import PrimFloat Uint63 SpecFloat FloatOps.
From Stdlib Require Import Finite.
Import ListNotations.
Open Scope list_scope.
Open Scope Z_scope.

(* ------------------------------------------------------------------------- *)
(** ** Python strings, results and exceptions *)

Definition pystr := list Z.

(** A string literal of the source (ASCII) as a list of code points. *)
Definition lit (s : string) : pystr :=
  map (fun a => Z.of_nat (nat_of_ascii a)) (list_ascii_of_string s).

Fixpoint pystr_eqb (s t : pystr) : bool :=
  match s, t with
  | [], [] => true
  | a :: s', b :: t' => (a =? b) && pystr_eqb s' t'
  | _, _ => false
  end.

(** Python's truthiness of a [str]: the empty string is falsy. *)
Definition py_truthy (s : pystr) : bool :=
  match s with [] => false | _ => true end.

(** [str.lower()] on the ASCII range; other code points are kept (the Unicode
    case tables are not modelled). *)
Definition py_lower_char (c : Z) : Z :=
  if (65 <=? c) && (c <=? 90) then c + 32 else c.

Definition py_lower (s : pystr) : pystr := map py_lower_char s.

(** [str(n)] for a Python [int]. *)
Fixpoint digits_of_pos (fuel : nat) (n : Z) (acc : pystr) : pystr :=
  match fuel with
  | O => acc
  | S fuel' =>
      let acc' := (48 + n mod 10) :: acc in
      if n <? 10 then acc' else digits_of_pos fuel' (n / 10) acc'
  end.

Definition py_str_int (n : Z) : pystr :=
  if n <? 0 then 45 :: digits_of_pos (Z.to_nat (Z.log2_up (- n) + 1)) (- n) []
  else digits_of_pos (Z.to_nat (Z.log2_up n + 1)) n [].

(** The exceptions raised by the modelled code. *)
Inductive Exc :=
| ImageProcessingError (msg : pystr)
| ValidationError                      (* pydantic's ValidationError *)
| UnicodeEncodeError
| OSError
| ValueError
| ZeroDivisionError
| AttributeError (name : pystr)
| HTTPException (status : Z)
| TyperExit (code : Z).

Inductive Result (A : Type) :=
| Ok (a : A)
| Err (e : Exc).
Arguments Ok {A} a.
Arguments Err {A} e.

(* ------------------------------------------------------------------------- *)
(** ** [str.encode()]: UTF-8, strict error handler

    A lone surrogate (U+D800..U+DFFF) cannot be encoded and raises
    [UnicodeEncodeError]; such code points occur in Python [str] paths that
    come from undecodable file names (surrogateescape). *)

Definition utf8_char (c : Z) : option (list Z) :=
  if c <? 128 then Some [c]
  else if c <? 2048 then Some [192 + c / 64; 128 + c mod 64]
  else if (55296 <=? c) && (c <=? 57343) then None
  else if c <? 65536 then Some [224 + c / 4096; 128 + (c / 64) mod 64; 128 + c mod 64]
  else Some [240 + c / 262144; 128 + (c / 4096) mod 64;
             128 + (c / 64) mod 64; 128 + c mod 64].

Fixpoint utf8_encode (s : pystr) : option (list Z) :=
  match s with
  | [] => Some []
  | c :: s' =>
      match utf8_char c, utf8_encode s' with
      | Some b, Some bs => Some (b ++ bs)
      | _, _ => None
      end
  end.

(* ------------------------------------------------------------------------- *)
(** ** [hashlib.md5(...).hexdigest()] (RFC 1321) *)

Module MD5.

Definition mask32 (x : Z) : Z := Z.land x (2 ^ 32 - 1).
Definition add32 (x y : Z) : Z := mask32 (x + y).
Definition not32 (x : Z) : Z := Z.lxor x (2 ^ 32 - 1).
Definition rotl32 (x n : Z) : Z :=
  mask32 (Z.lor (Z.shiftl x n) (Z.shiftr x (32 - n))).

Definition K : list Z :=
  [ 0xd76aa478; 0xe8c7b756; 0x242070db; 0xc1bdceee; 0xf57c0faf; 0x4787c62a;
    0xa8304613; 0xfd469501; 0x698098d8; 0x8b44f7af; 0xffff5bb1; 0x895cd7be;
    0x6b901122; 0xfd987193; 0xa679438e; 0x49b40821; 0xf61e2562; 0xc040b340;
    0x265e5a51; 0xe9b6c7aa; 0xd62f105d; 0x02441453; 0xd8a1e681; 0xe7d3fbc8;
    0x21e1cde6; 0xc33707d6; 0xf4d50d87; 0x455a14ed; 0xa9e3e905; 0xfcefa3f8;
    0x676f02d9; 0x8d2a4c8a; 0xfffa3942; 0x8771f681; 0x6d9d6122; 0xfde5380c;
    0xa4beea44; 0x4bdecfa9; 0xf6bb4b60; 0xbebfbc70; 0x289b7ec6; 0xeaa127fa;
    0xd4ef3085; 0x04881d05; 0xd9d4d039; 0xe6db99e5; 0x1fa27cf8; 0xc4ac5665;
    0xf4292244; 0x432aff97; 0xab9423a7; 0xfc93a039; 0x655b59c3; 0x8f0ccc92;
    0xffeff47d; 0x85845dd1; 0x6fa87e4f; 0xfe2ce6e0; 0xa3014314; 0x4e0811a1;
    0xf7537e82; 0xbd3af235; 0x2ad7d2bb; 0xeb86d391 ].

Definition S : list Z :=
  [7; 12; 17; 22; 7; 12; 17; 22; 7; 12; 17; 22; 7; 12; 17; 22;
   5; 9; 14; 20; 5; 9; 14; 20; 5; 9; 14; 20; 5; 9; 14; 20;
   4; 11; 16; 23; 4; 11; 16; 23; 4; 11; 16; 23; 4; 11; 16; 23;
   6; 10; 15; 21; 6; 10; 15; 21; 6; 10; 15; 21; 6; 10; 15; 21].

Definition state := (Z * Z * Z * Z)%type.

Definition init : state := (0x67452301, 0xefcdab89, 0x98badcfe, 0x10325476).

(** Little-endian bytes of a w-bit number. *)
Fixpoint le_bytes (n : nat) (x : Z) : list Z :=
  match n with
  | O => []
  | Datatypes.S n' => Z.land x 255 :: le_bytes n' (Z.shiftr x 8)
  end.

Fixpoint le_word (bs : list Z) : Z :=
  match bs with
  | [] => 0
  | b :: bs' => b + 256 * le_word bs'
  end.

(** Padding: 0x80, zeros up to 56 mod 64, then the bit length (64-bit LE). *)
Definition pad (msg : list Z) : list Z :=
  let len := Z.of_nat (length msg) in
  msg ++ [128] ++ repeat 0 (Z.to_nat ((55 - len) mod 64))
      ++ le_bytes 8 ((8 * len) mod 2 ^ 64).

Fixpoint words (fuel : nat) (bs : list Z) : list Z :=
  match fuel with
  | O => []
  | Datatypes.S f =>
      match bs with
      | [] => []
      | _ => le_word (firstn 4 bs) :: words f (skipn 4 bs)
      end
  end.

Definition round (M : list Z) (st : state) (i : nat) : state :=
  let '(a, b, c, d) := st in
  let '(f, g) :=
    if (i <? 16)%nat then (Z.lor (Z.land b c) (Z.land (not32 b) d), i)
    else if (i <? 32)%nat then (Z.lor (Z.land d b) (Z.land (not32 d) c), ((5 * i + 1) mod 16)%nat)
    else if (i <? 48)%nat then (Z.lxor b (Z.lxor c d), ((3 * i + 5) mod 16)%nat)
    else (Z.lxor c (Z.lor b (not32 d)), ((7 * i) mod 16)%nat) in
  let f' := add32 (add32 (add32 f a) (nth i K 0)) (nth g M 0) in
  (d, add32 b (rotl32 f' (nth i S 0)), b, c).

Definition block (st : state) (blk : list Z) : state :=
  let M := words 16 blk in
  let '(a, b, c, d) := st in
  let '(a', b', c', d') := fold_left (round M) (seq 0 64) st in
  (add32 a a', add32 b b', add32 c c', add32 d d').

Fixpoint blocks (fuel : nat) (st : state) (bs : list Z) : state :=
  match fuel with
  | O => st
  | Datatypes.S f =>
      match bs with
      | [] => st
      | _ => blocks f (block st (firstn 64 bs)) (skipn 64 bs)
      end
  end.

Definition digest (msg : list Z) : list Z :=
  let p := pad msg in
  let '(a, b, c, d) := blocks (length p) init p in
  le_bytes 4 a ++ le_bytes 4 b ++ le_bytes 4 c ++ le_bytes 4 d.

Definition hex_alphabet : pystr := lit "0123456789abcdef".

Definition hex_digit (n : Z) : Z := nth (Z.to_nat (n mod 16)) hex_alphabet 48.

Definition byte_hex (b : Z) : pystr := [hex_digit (b / 16); hex_digit b].

Definition hexdigest (msg : list Z) : pystr := flat_map byte_hex (digest msg).

End MD5.

(* ------------------------------------------------------------------------- *)
(** ** Python floats *)

(** [float(n)] for an image dimension (a C int, exactly representable). *)
Definition py_float (n : Z) : float := of_uint63 (Uint63.of_Z n).

(** [int(x)]: truncation toward zero of a finite float. *)
Definition py_int (x : float) : Z :=
  match Prim2SF x with
  | S754_finite s m e =>
      let v := if 0 <=? e then Z.shiftl (Zpos m) e else Z.shiftr (Zpos m) (- e) in
      if s then - v else v
  | _ => 0
  end.

(** [min(a, b)]: the first argument unless the second is smaller. *)
Definition py_min (a b : float) : float := if (b <? a)%float then b else a.

(** [round(x)] to the nearest integer (ties to even), used only to state
    the rounding that the specification describes. *)
Definition py_round (x : float) : Z :=
  let t := py_int x in
  let frac := (x - py_float t)%float in
  if (frac <? 0.5)%float then t
  else if (0.5 <? frac)%float then t + 1
  else if Z.even t then t else t + 1.

(* ------------------------------------------------------------------------- *)
(** ** Configuration (config.py) *)

Record Config := mkConfig {
  max_width : Z;
  max_height : Z;
  jpeg_quality : Z;
  webp_quality : Z;
  thumbnail_size : Z;
  supported_extensions : list pystr;
  workspace_base : pystr;
  image_store_folder : pystr;
  thumbnail_folder : pystr;
  enable_thumbnails : bool;
  enable_exif_extraction : bool;
  default_output_format : pystr
}.

Definition default_config : Config := {|
  max_width := 2048;
  max_height := 2048;
  jpeg_quality := 85;
  webp_quality := 80;
  thumbnail_size := 200;
  supported_extensions :=
    map lit [".jpg"; ".jpeg"; ".png"; ".webp"; ".bmp"; ".tiff"; ".tif"]%string;
  workspace_base := lit "workspace_X";
  image_store_folder := lit "PlanoraAgent/image_store";
  thumbnail_folder := lit "thumbnails";
  enable_thumbnails := true;
  enable_exif_extraction := true;
  default_output_format := lit "webp"
|}.

Definition with_thumbnails (cfg : Config) (b : bool) : Config :=
  {| max_width := max_width cfg; max_height := max_height cfg;
     jpeg_quality := jpeg_quality cfg; webp_quality := webp_quality cfg;
     thumbnail_size := thumbnail_size cfg;
     supported_extensions := supported_extensions cfg;
     workspace_base := workspace_base cfg;
     image_store_folder := image_store_folder cfg;
     thumbnail_folder := thumbnail_folder cfg;
     enable_thumbnails := b;
     enable_exif_extraction := enable_exif_extraction cfg;
     default_output_format := default_output_format cfg |}.

(** [pdf_max_image_size]. *)
Definition pdf_max_image_size (cfg : Config) : Z * Z := (max_width cfg, max_height cfg).

(* ------------------------------------------------------------------------- *)
(** ** PIL images

    The modes the pipeline distinguishes. Pixels are lists of band values.
    In PIL's storage an "LA" pixel occupies four bytes (L, L, L, A) and an
    "RGBA" pixel (R, G, B, A); pasting either into an "RGB" image without a
    mask copies the first three bytes. *)

Inductive Mode := Mode1 | ModeL | ModeP | ModeRGB | ModeRGBA | ModeLA.

Definition mode_name (m : Mode) : pystr :=
  match m with
  | Mode1 => lit "1" | ModeL => lit "L" | ModeP => lit "P"
  | ModeRGB => lit "RGB" | ModeRGBA => lit "RGBA" | ModeLA => lit "LA"
  end.

Definition has_alpha_band (m : Mode) : bool :=
  match m with ModeRGBA | ModeLA => true | _ => false end.

Inductive Filter := NEAREST | LANCZOS.

(** Pixel data: decoded pixels, a uniform fill ([Image.new]), or the result
    of resampling to a new size with a filter. *)
Inductive Pixels :=
| Raw (px : list (list Z))
| Fill (n : nat) (color : list Z)
| Resampled (f : Filter) (w h : Z) (src : Pixels).

Fixpoint px_map (f : list Z -> list Z) (p : Pixels) : Pixels :=
  match p with
  | Raw px => Raw (map f px)
  | Fill n c => Fill n (f c)
  | Resampled fl w h src => Resampled fl w h (px_map f src)
  end.

Record Image := mkImage {
  img_mode : Mode;
  img_width : Z;
  img_height : Z;
  img_pixels : Pixels;
  img_palette : list (list Z);       (* "P": RGB entry per index *)
  img_transparency : option Z;       (* image.info['transparency'] *)
  img_format : option pystr;         (* image.format *)
  img_exif : list (pystr * pystr)    (* EXIF tags, by tag name *)
}.

Definition img_size (im : Image) : Z * Z := (img_width im, img_height im).

(** One pixel of [mode] as the RGB bytes [convert('RGB')] / raw paste give. *)
Definition pixel_rgb (m : Mode) (palette : list (list Z)) (p : list Z) : list Z :=
  match m, p with
  | Mode1, [v] => if v =? 0 then [0; 0; 0] else [255; 255; 255]
  | ModeL, [l] => [l; l; l]
  | ModeP, [i] => nth (Z.to_nat i) palette [0; 0; 0]
  | ModeRGB, [r; g; b] => [r; g; b]
  | ModeRGBA, [r; g; b; _] => [r; g; b]
  | ModeLA, [l; _] => [l; l; l]
  | _, _ => [0; 0; 0]
  end.

(** [convert('RGB')]. *)
Definition convert_rgb (im : Image) : Image :=
  {| img_mode := ModeRGB; img_width := img_width im; img_height := img_height im;
     img_pixels := px_map (pixel_rgb (img_mode im) (img_palette im)) (img_pixels im);
     img_palette := []; img_transparency := img_transparency im;
     img_format := None; img_exif := img_exif im |}.

(** [convert('RGBA')] of a "P" image: the transparency index gets alpha 0. *)
Definition p_pixel_rgba (palette : list (list Z)) (t : option Z) (p : list Z) : list Z :=
  let i := hd 0 p in
  nth (Z.to_nat i) palette [0; 0; 0] ++
  [match t with Some k => if i =? k then 0 else 255 | None => 255 end].

Definition convert_rgba_from_p (im : Image) : Image :=
  {| img_mode := ModeRGBA; img_width := img_width im; img_height := img_height im;
     img_pixels := px_map (p_pixel_rgba (img_palette im) (img_transparency im)) (img_pixels im);
     img_palette := []; img_transparency := None;
     img_format := None; img_exif := img_exif im |}.

(** [Image.new('RGB', size, color)]. *)
Definition image_new_rgb (size : Z * Z) (color : list Z) : Image :=
  {| img_mode := ModeRGB; img_width := fst size; img_height := snd size;
     img_pixels := Fill (Z.to_nat (fst size * snd size)) color;
     img_palette := []; img_transparency := None; img_format := None; img_exif := [] |}.

(** PIL's Paste.c: [BLEND(mask, out, in) = DIV255(out*(255-mask) + in*mask)]. *)
Definition div255 (a : Z) : Z := let t := a + 128 in Z.shiftr (Z.shiftr t 8 + t) 8.
Definition blend (mask dst src : Z) : Z := div255 (dst * (255 - mask) + src * mask).

(** [bg.paste(src)] at (0, 0), same size, on a fresh [Image.new] background:
    every pixel is replaced by the source's RGB bytes. *)
Definition paste (bg src : Image) : Image :=
  {| img_mode := img_mode bg; img_width := img_width bg; img_height := img_height bg;
     img_pixels := px_map (pixel_rgb (img_mode src) (img_palette src)) (img_pixels src);
     img_palette := []; img_transparency := None; img_format := None; img_exif := [] |}.

(** [bg.paste(src, mask=src.split()[-1])] on a fresh background of colour
    [c]: each channel is blended with the last band of the source pixel. *)
Definition paste_masked (c : list Z) (bg src : Image) : Image :=
  {| img_mode := img_mode bg; img_width := img_width bg; img_height := img_height bg;
     img_pixels :=
       px_map (fun p => let a := last p 0 in
                        map (fun '(d, s) => blend a d s)
                            (combine c (pixel_rgb (img_mode src) (img_palette src) p)))
              (img_pixels src);
     img_palette := []; img_transparency := None; img_format := None; img_exif := [] |}.

(** [image.resize(size, filter)]; PIL's core refuses a size below 1. *)
Definition resize (im : Image) (size : Z * Z) (f : Filter) : Result Image :=
  let '(w, h) := size in
  if (w =? img_width im) && (h =? img_height im) then Ok im
  else if (w <? 1) || (h <? 1) then Err ValueError
  else Ok {| img_mode := img_mode im; img_width := w; img_height := h;
             img_pixels := Resampled f w h (img_pixels im);
             img_palette := img_palette im; img_transparency := img_transparency im;
             img_format := None; img_exif := img_exif im |}.

Definition white : list Z := [255; 255; 255].

(* ------------------------------------------------------------------------- *)
(** ** [ImageProcessor.optimize_image] (core.py) *)

(** [a / b] on Python ints: true division, correctly rounded. *)
Definition py_truediv (a b : Z) : Result float :=
  if b =? 0 then Err ZeroDivisionError else Ok (py_float a / py_float b)%float.

(** Lines 114-128: mode normalisation. *)
Definition optimize_mode (image : Image) : Image :=
  match img_mode image with
  | ModeRGBA | ModeLA | ModeP =>
      let rgb_img := image_new_rgb (img_size image) white in
      match img_mode image, img_transparency image with
      | ModeRGBA, _ => paste_masked white rgb_img image
      | ModeP, Some _ =>
          let image' := convert_rgba_from_p image in
          paste_masked white rgb_img image'
      | _, _ => paste rgb_img image
      end
  | ModeRGB => image
  | _ => convert_rgb image
  end.

(** Lines 130-141: downscaling to the configured maximum. *)
Definition optimize_size (cfg : Config) (image : Image) : Result Image :=
  let '(mw, mh) := pdf_max_image_size cfg in
  if (mw <? img_width image) || (mh <? img_height image) then
    match py_truediv mw (img_width image) with
    | Err e => Err e
    | Ok a =>
        match py_truediv mh (img_height image) with
        | Err e => Err e
        | Ok b =>
            let ratio := py_min a b in
            let new_width := py_int (py_float (img_width image) * ratio)%float in
            let new_height := py_int (py_float (img_height image) * ratio)%float in
            resize image (new_width, new_height) LANCZOS
        end
    end
  else Ok image.

(** The whole method: any exception becomes an [ImageProcessingError]. *)
Definition optimize_image (cfg : Config) (image : Image) : Result Image :=
  match optimize_size cfg (optimize_mode image) with
  | Ok im => Ok im
  | Err _ => Err (ImageProcessingError (lit "Failed to optimize image"))
  end.

(* ------------------------------------------------------------------------- *)
(** ** The world: file system, clock and the log of pipeline steps *)

(** What a file holds: a directory, uploaded or original bytes (with what PIL
    decodes them to, [None] when PIL cannot identify them), or an image
    written by PIL in a format with a quality setting. *)
Inductive Content :=
| CDir
| CBytes (decoded : option Image)
| CEncoded (fmt : pystr) (quality : option Z) (im : Image).

Record FileEntry := mkFile {
  fe_is_file : bool;
  fe_size : Z;          (* os.path.getsize / stat().st_size *)
  fe_mtime : pystr;     (* f"{os.path.getmtime(p)}": the float's repr *)
  fe_content : Content
}.

(** The steps whose occurrence the claims talk about. *)
Inductive Event :=
| EvTempWrite (p : pystr)
| EvDecode (p : pystr)
| EvNormalize
| EvSave (p : pystr)
| EvThumbnail (p : pystr)
| EvRemove (p : pystr).

Record World := mkWorld {
  w_files : list (pystr * FileEntry);  (* absolute path -> entry *)
  w_cwd : pystr;
  w_unwritable : list pystr;           (* directories where writes raise OSError *)
  w_mkdir_fails : bool;                (* mkdir raises OSError *)
  w_time : Z;                          (* int(time.time()) *)
  w_encoded_size : Z;                  (* byte size of what the codec writes *)
  w_tmp_name : pystr;                  (* the name NamedTemporaryFile picks *)
  w_log : list Event
}.

Definition slash : pystr := lit "/".

(** Resolution of a relative path against the working directory. *)
Definition absolute (w : World) (p : pystr) : pystr :=
  match p with
  | 47 :: _ => p
  | _ => w_cwd w ++ slash ++ p
  end.

Fixpoint assoc {A} (k : pystr) (l : list (pystr * A)) : option A :=
  match l with
  | [] => None
  | (k', v) :: l' => if pystr_eqb k k' then Some v else assoc k l'
  end.

Definition lookup (w : World) (p : pystr) : option FileEntry :=
  assoc (absolute w p) (w_files w).

(** [Path(a) / b]. *)
Definition path_join (a b : pystr) : pystr := a ++ slash ++ b.

(** Everything before the last '/', and after it ([Path.parent], [Path.name]). *)
Fixpoint split_last_slash (p : pystr) : pystr * pystr :=
  match p with
  | [] => ([], [])
  | c :: p' =>
      let '(d, n) := split_last_slash p' in
      if existsb (Z.eqb 47) p' then (c :: d, n)
      else if c =? 47 then ([], p') else ([], c :: p')
  end.

Definition path_name (p : pystr) : pystr := snd (split_last_slash p).
Definition path_parent (p : pystr) : pystr := fst (split_last_slash p).

(** [Path.suffix]: from the last '.', unless it starts or ends the name. *)
Fixpoint last_dot (i : nat) (s : pystr) (acc : option nat) : option nat :=
  match s with
  | [] => acc
  | c :: s' => last_dot (Datatypes.S i) s' (if c =? 46 then Some i else acc)
  end.

Definition path_suffix (p : pystr) : pystr :=
  let n := path_name p in
  match last_dot 0 n None with
  | Some i => if (0 <? i)%nat && (i <? length n - 1)%nat then skipn i n else []
  | None => []
  end.

Definition path_stem (p : pystr) : pystr :=
  let n := path_name p in
  firstn (length n - length (path_suffix p)) n.

(* ------------------------------------------------------------------------- *)
(** ** A state and exception monad for the pipeline *)

Definition M (A : Type) : Type := World -> Result A * World.

Definition ret {A} (a : A) : M A := fun w => (Ok a, w).

Definition bind {A B} (m : M A) (k : A -> M B) : M B :=
  fun w => match m w with
           | (Ok a, w') => k a w'
           | (Err e, w') => (Err e, w')
           end.

Definition raise {A} (e : Exc) : M A := fun w => (Err e, w).

(** [try: m except Exception as e: h(e)]. *)
Definition try_except {A} (m : M A) (h : Exc -> M A) : M A :=
  fun w => match m w with
           | (Err e, w') => h e w'
           | r => r
           end.

(** [try: m finally: f]. *)
Definition try_finally {A} (m : M A) (f : M unit) : M A :=
  fun w => let '(r, w') := m w in
           match f w' with
           | (Ok _, w'') => (r, w'')
           | (Err e, w'') => (Err e, w'')
           end.

Definition get : M World := fun w => (Ok w, w).
Definition put (w : World) : M unit := fun _ => (Ok tt, w).

Definition lift {A} (r : Result A) : M A := fun w => (r, w).

Notation "x <- m ;; k" := (bind m (fun x => k))
  (at level 61, m at next level, right associativity).
Notation "' p <- m ;; k" := (bind m (fun x => match x with p => k end))
  (at level 61, p pattern, m at next level, right associativity).
Notation "m ;;; k" := (bind m (fun _ => k))
  (at level 61, right associativity).

Definition set_files (w : World) (fs : list (pystr * FileEntry)) (ev : list Event) : World :=
  {| w_files := fs; w_cwd := w_cwd w; w_unwritable := w_unwritable w;
     w_mkdir_fails := w_mkdir_fails w; w_time := w_time w;
     w_encoded_size := w_encoded_size w; w_tmp_name := w_tmp_name w;
     w_log := w_log w ++ ev |}.

Definition log (ev : Event) : M unit :=
  fun w => (Ok tt, set_files w (w_files w) [ev]).

(** Writing a file: raises [OSError] in an unwritable directory. *)
Definition write_file (p : pystr) (e : FileEntry) (ev : Event) : M unit :=
  fun w =>
    let ap := absolute w p in
    if existsb (pystr_eqb (path_parent ap)) (w_unwritable w) then (Err OSError, w)
    else (Ok tt, set_files w ((ap, e) :: w_files w) [ev]).

(** [Path(p).mkdir(parents=True, exist_ok=True)]. *)
Definition mkdir_p (p : pystr) : M unit :=
  fun w =>
    if w_mkdir_fails w then (Err OSError, w)
    else match lookup w p with
         | Some e => if fe_is_file e then (Err OSError, w) else (Ok tt, w)
         | None =>
             (Ok tt, set_files w ((absolute w p, mkFile false 4096 [] CDir) :: w_files w) [])
         end.

Definition remove_file (p : pystr) : M unit :=
  fun w =>
    let ap := absolute w p in
    (Ok tt, set_files w (filter (fun '(k, _) => negb (pystr_eqb k ap)) (w_files w))
                      [EvRemove p]).

(** The mtime repr of a file written now. *)
Definition now_mtime (w : World) : pystr := py_str_int (w_time w) ++ lit ".0".

(* ------------------------------------------------------------------------- *)
(** ** Paths of the configuration (config.py) *)

Definition get_workspace_path (cfg : Config) (workspace : option pystr) : pystr :=
  match workspace with
  | Some s => if py_truthy s then s else workspace_base cfg
  | None => workspace_base cfg
  end.

Definition get_image_store_path (cfg : Config) (workspace : option pystr) : pystr :=
  path_join (get_workspace_path cfg workspace) (image_store_folder cfg).

Definition get_thumbnail_path (cfg : Config) (workspace : option pystr) : pystr :=
  path_join (get_image_store_path cfg workspace) (thumbnail_folder cfg).

Definition ensure_directories (cfg : Config) (workspace : option pystr) : M unit :=
  mkdir_p (get_image_store_path cfg workspace) ;;;
  mkdir_p (get_thumbnail_path cfg workspace).

Definition is_supported_format (cfg : Config) (file_path : pystr) : bool :=
  existsb (pystr_eqb (py_lower (path_suffix file_path))) (supported_extensions cfg).

(* ------------------------------------------------------------------------- *)
(** ** [ImageStorage] (storage.py) *)

Definition py_upper_char (c : Z) : Z :=
  if (97 <=? c) && (c <=? 122) then c - 32 else c.
Definition py_upper (s : pystr) : pystr := map py_upper_char s.

(** The string that [generate_filename] hashes:
    [f"{original_path}_{os.path.getmtime(original_path) if os.path.exists(original_path) else ''}"]. *)
Definition hash_input (w : World) (original_path : pystr) : pystr :=
  original_path ++ lit "_" ++
  match lookup w original_path with
  | Some e => fe_mtime e
  | None => []
  end.

Definition generate_filename (w : World) (original_path format : pystr) : Result pystr :=
  match utf8_encode (hash_input w original_path) with
  | None => Err UnicodeEncodeError
  | Some bytes =>
      let file_hash := firstn 12 (MD5.hexdigest bytes) in
      let extension :=
        if pystr_eqb (py_lower format) (lit "jpeg") then lit "jpg" else py_lower format in
      Ok (lit "img_" ++ file_hash ++ lit "." ++ extension)
  end.

Definition generate_thumbnail_filename (image_filename : pystr) : pystr :=
  lit "thumb_" ++ path_stem image_filename ++ lit ".jpg".

(** Pillow's registry of image writers ([Image.SAVE]); another name raises. *)
Definition pillow_writers : list pystr :=
  map lit ["BMP"; "DIB"; "EPS"; "GIF"; "ICNS"; "ICO"; "IM"; "JPEG"; "JPEG2000";
           "MPO"; "MSP"; "PCX"; "PDF"; "PNG"; "PPM"; "SGI"; "SPIDER"; "TGA";
           "TIFF"; "WEBP"; "XBM"; "PALM"; "BLP"; "DDS"]%string.

(** [image.save(path, format, **kwargs)]. *)
Definition pil_save (im : Image) (p save_format : pystr) (quality : option Z) (ev : Event) : M unit :=
  if existsb (pystr_eqb save_format) pillow_writers then
    w <- get ;;
    write_file p (mkFile true (w_encoded_size w) (now_mtime w)
                         (CEncoded save_format quality im)) ev
  else raise ValueError.

Definition save_image (cfg : Config) (image : Image) (original_path : pystr)
    (workspace : option pystr) (format : pystr) : M (pystr * Z) :=
  ensure_directories cfg workspace ;;;
  w <- get ;;
  filename <- lift (generate_filename w original_path format) ;;
  let save_path := path_join (get_image_store_path cfg workspace) filename in
  let '(save_format, quality) :=
    if existsb (pystr_eqb (py_lower format)) [lit "jpeg"; lit "jpg"]
    then (lit "JPEG", Some (jpeg_quality cfg))
    else if pystr_eqb (py_lower format) (lit "webp")
    then (lit "WEBP", Some (webp_quality cfg))
    else (py_upper format, None) in
  pil_save image save_path save_format quality (EvSave save_path) ;;;
  w' <- get ;;
  match lookup w' save_path with
  | Some e => ret (save_path, fe_size e)
  | None => raise OSError
  end.

(** [Image.thumbnail((size, size), LANCZOS)]: Pillow's aspect-preserving
    target size ([preserve_aspect_ratio] / [round_aspect]). *)
Definition round_aspect (number : float) (key : Z -> float) : Z :=
  let fl := py_int number in
  let ce := if (py_float fl <? number)%float then fl + 1 else fl in
  Z.max (if (key ce <? key fl)%float then ce else fl) 1.

Definition thumbnail (im : Image) (size : Z) : Result Image :=
  let x := size in
  let y := size in
  if (img_width im <=? x) && (img_height im <=? y) then Ok im
  else if (img_height im =? 0) || (y =? 0) then Err ZeroDivisionError
  else
    let aspect := (py_float (img_width im) / py_float (img_height im))%float in
    let '(x', y') :=
      if (aspect <=? py_float x / py_float y)%float
      then (round_aspect (py_float y * aspect)%float
              (fun n => PrimFloat.abs (aspect - py_float n / py_float y)), y)
      else (x, round_aspect (py_float x / aspect)%float
                 (fun n => if n =? 0 then 0%float
                           else PrimFloat.abs (aspect - py_float x / py_float n))) in
    resize im (x', y') LANCZOS.

(** The body of the [try] block of [create_thumbnail]. *)
Definition create_thumbnail_try (cfg : Config) (image : Image) (original_filename : pystr)
    (workspace : option pystr) : M (option pystr) :=
  let thumbnail_path := get_thumbnail_path cfg workspace in
  mkdir_p thumbnail_path ;;;
  thumb <- lift (thumbnail image (thumbnail_size cfg)) ;;
  let thumb :=
    match img_mode thumb with
    | ModeRGBA | ModeLA | ModeP =>
        let rgb_thumbnail := image_new_rgb (img_size thumb) white in
        match img_mode thumb with
        | ModeRGBA => paste_masked white rgb_thumbnail thumb
        | _ => paste rgb_thumbnail thumb
        end
    | _ => thumb
    end in
  let thumb_save_path :=
    path_join thumbnail_path (generate_thumbnail_filename original_filename) in
  pil_save thumb thumb_save_path (lit "JPEG") (Some 85) (EvThumbnail thumb_save_path) ;;;
  ret (Some thumb_save_path).

Definition create_thumbnail (cfg : Config) (image : Image) (original_filename : pystr)
    (workspace : option pystr) : M (option pystr) :=
  if negb (enable_thumbnails cfg) then ret None
  else try_except (create_thumbnail_try cfg image original_filename workspace)
    (fun _ => ret None).

(* ------------------------------------------------------------------------- *)
(** ** Pydantic models (models.py), pydantic v1 validation *)

Record ImageMetadata := mkImageMetadata {
  width : Z;
  height : Z;
  mode : pystr;
  format : pystr;
  file_size : Z;
  has_transparency : bool;
  exif : option (list (pystr * pystr))
}.

(** [ImageMetadata(...)]: [validate_positive] on width, height and file_size;
    [format] is a required [str], so [None] is refused as well. *)
Definition ImageMetadata_new (width height : Z) (mode : pystr) (format : option pystr)
    (file_size : Z) (has_transparency : bool) (exif : option (list (pystr * pystr)))
    : Result ImageMetadata :=
  if (width <=? 0) || (height <=? 0) || (file_size <=? 0) then Err ValidationError
  else match format with
       | None => Err ValidationError
       | Some f => Ok (mkImageMetadata width height mode f file_size has_transparency exif)
       end.

(** [metadata.file_size = ...]: plain attribute assignment, not validated. *)
Definition set_file_size (m : ImageMetadata) (n : Z) : ImageMetadata :=
  mkImageMetadata (width m) (height m) (mode m) (format m) n (has_transparency m) (exif m).

Record Page := mkPage {
  page_number : Z;
  text_content : option pystr;
  image_path : pystr;
  thumbnail_path : option pystr;
  metadata : ImageMetadata;
  document_name : option pystr;
  document_id : option pystr
}.

(** [str.isspace()] code points, for [not v.strip()]. *)
Definition py_isspace (c : Z) : bool :=
  ((9 <=? c) && (c <=? 13)) || ((28 <=? c) && (c <=? 32)) || (c =? 133) || (c =? 160)
  || (c =? 5760) || ((8192 <=? c) && (c <=? 8202)) || (c =? 8232) || (c =? 8233)
  || (c =? 8239) || (c =? 8287) || (c =? 12288).

Definition is_blank (s : pystr) : bool := forallb py_isspace s.

Definition Page_new (page_number : Z) (text_content : option pystr) (image_path : pystr)
    (thumbnail_path : option pystr) (metadata : ImageMetadata) : Result Page :=
  if (page_number <=? 0) || is_blank image_path then Err ValidationError
  else Ok (mkPage page_number text_content image_path thumbnail_path metadata None None).

Inductive DocumentStatus := PENDING | PROCESSING | COMPLETED | FAILED.

(** The [metadata] dict of a Document ([created_at], a local-time string, is
    left out). *)
Record DocMeta := mkDocMeta {
  original_file : pystr;
  processor : pystr;
  dm_file_size : Z;
  image_format : pystr;
  dimensions : pystr
}.

Record Document := mkDocument {
  doc_id : pystr;
  title : pystr;
  file_path : pystr;
  num_pages : Z;
  pages : list Page;
  status : DocumentStatus;
  doc_metadata : DocMeta
}.

(** [Document(...)]: [validate_title], [validate_num_pages], and
    [validate_pages_count], which only runs when [num_pages] validated. *)
Definition Document_new (id title file_path : pystr) (num_pages : Z) (pages : list Page)
    (status : DocumentStatus) (metadata : DocMeta) : Result Document :=
  let title_err := is_blank title in
  let num_pages_err := num_pages <=? 0 in
  let pages_err := if num_pages_err then false
                   else negb (Z.of_nat (length pages) =? num_pages) in
  if title_err || num_pages_err || pages_err then Err ValidationError
  else Ok (mkDocument id title file_path num_pages pages status metadata).

(** [update_page_references]: the Page objects are mutated in place. *)
Definition update_page_references (d : Document) : Document :=
  mkDocument (doc_id d) (title d) (file_path d) (num_pages d)
    (map (fun p => mkPage (page_number p) (text_content p) (image_path p)
                          (thumbnail_path p) (metadata p) (Some (title d)) (Some (doc_id d)))
         (pages d))
    (status d) (doc_metadata d).

(* ------------------------------------------------------------------------- *)
(** ** [MetadataExtractor] (metadata.py) *)

Record BasicMeta := mkBasicMeta {
  bm_width : Z;
  bm_height : Z;
  bm_mode : pystr;
  bm_format : pystr;
  bm_file_size : Z;
  bm_has_transparency : bool
}.

Definition check_transparency (image : Image) : bool :=
  match img_mode image with
  | ModeRGBA | ModeLA => true
  | ModeP => match img_transparency image with Some _ => true | None => false end
  | _ => match img_transparency image with Some _ => true | None => false end
  end.

(** [extract_basic_metadata]; none of its steps raises on a PIL image, so its
    [except] branch is not reached. *)
Definition extract_basic_metadata (w : World) (image : Image) (file_path : pystr) : BasicMeta :=
  {| bm_width := img_width image;
     bm_height := img_height image;
     bm_mode := mode_name (img_mode image);
     bm_format := match img_format image with Some f => f | None => lit "Unknown" end;
     bm_file_size := match lookup w file_path with Some e => fe_size e | None => 0 end;
     bm_has_transparency := check_transparency image |}.

Definition useful_fields : list pystr :=
  map lit ["Make"; "Model"; "DateTime"; "DateTimeOriginal"; "ExifImageWidth";
           "ExifImageHeight"; "Orientation"; "XResolution"; "YResolution";
           "ResolutionUnit"; "Software"; "ColorSpace"; "WhiteBalance"]%string.

Definition extract_exif_data (cfg : Config) (image : Image) : option (list (pystr * pystr)) :=
  if negb (enable_exif_extraction cfg) then None
  else
    (* later tags overwrite earlier ones in the dict *)
    let exif_data := rev (filter (fun '(_, v) => Nat.leb (length v) 200) (img_exif image)) in
    let useful_exif :=
      flat_map (fun f => match assoc f exif_data with
                         | Some v => [(f, v)]
                         | None => []
                         end) useful_fields in
    match useful_exif with [] => None | _ => Some useful_exif end.

Definition create_image_metadata (cfg : Config) (w : World) (image : Image)
    (file_path : pystr) (processed_size : option (Z * Z)) : Result ImageMetadata :=
  let basic_meta := extract_basic_metadata w image file_path in
  let exif_data := extract_exif_data cfg image in
  let '(width, height) :=
    match processed_size with
    | Some s => s
    | None => (bm_width basic_meta, bm_height basic_meta)
    end in
  match ImageMetadata_new width height (bm_mode basic_meta) (Some (bm_format basic_meta))
          (bm_file_size basic_meta) (bm_has_transparency basic_meta) exif_data with
  | Ok m => Ok m
  | Err _ =>
      (* "Return minimal metadata" *)
      ImageMetadata_new (img_width image) (img_height image) (mode_name (img_mode image))
        (img_format image) 0 false None
  end.

(* ------------------------------------------------------------------------- *)
(** ** [ImageProcessor] (core.py) *)

Definition validate_file (cfg : Config) (file_path : pystr) : M unit :=
  if negb (py_truthy file_path) then raise (ImageProcessingError (lit "File path is required"))
  else
    w <- get ;;
    match lookup w file_path with
    | None => raise (ImageProcessingError (lit "File not found"))
    | Some e =>
        if negb (fe_is_file e) then raise (ImageProcessingError (lit "Path is not a file"))
        else if fe_size e =? 0 then raise (ImageProcessingError (lit "File is empty"))
        else if negb (is_supported_format cfg file_path)
        then raise (ImageProcessingError (lit "Unsupported format"))
        else ret tt
    end.

(** [Image.open(p)], [load()], [copy()]: the copy is a plain [Image], whose
    [format] is [None]. *)
Definition load_image (file_path : pystr) : M Image :=
  w <- get ;;
  log (EvDecode file_path) ;;;
  let decoded :=
    match lookup w file_path with
    | Some (mkFile true _ _ (CBytes d)) => d
    | Some (mkFile true _ _ (CEncoded _ _ im)) => Some im
    | _ => None
    end in
  match decoded with
  | Some im =>
      ret {| img_mode := img_mode im; img_width := img_width im;
             img_height := img_height im; img_pixels := img_pixels im;
             img_palette := img_palette im; img_transparency := img_transparency im;
             img_format := None; img_exif := img_exif im |}
  | None => raise (ImageProcessingError (lit "Failed to load image"))
  end.

Definition process_image_sync (cfg : Config) (file_path : pystr) (workspace : option pystr)
    (output_format : option pystr) : M (Page * pystr * option pystr) :=
  let output_format :=
    match output_format with
    | Some f => if py_truthy f then f else default_output_format cfg
    | None => default_output_format cfg
    end in
  try_except
    (original_image <- load_image file_path ;;
     log EvNormalize ;;;
     optimized_image <- lift (optimize_image cfg original_image) ;;
     let final_size := img_size optimized_image in
     '(saved_path, fsize) <- save_image cfg optimized_image file_path workspace output_format ;;
     thumbnail_path <-
       (if enable_thumbnails cfg
        then create_thumbnail cfg optimized_image (path_name saved_path) workspace
        else ret None) ;;
     w <- get ;;
     md <- lift (create_image_metadata cfg w original_image file_path (Some final_size)) ;;
     let md := set_file_size md fsize in
     page <- lift (Page_new 1 None saved_path thumbnail_path md) ;;
     ret (page, saved_path, thumbnail_path))
    (fun _ => raise (ImageProcessingError (lit "Image processing failed"))).

(** [run_in_executor(process_image_sync, ...)]: one worker runs the
    synchronous pipeline to completion. *)
Definition process_image_async := process_image_sync.

Definition create_document (page : Page) (original_file_path : pystr)
    (document_id : option pystr) : M Document :=
  try_except
    (let title := path_name original_file_path in
     let md := metadata page in
     let meta := {| original_file := original_file_path;
                    processor := lit "ImageProcessor";
                    dm_file_size := file_size md;
                    image_format := format md;
                    dimensions := py_str_int (width md) ++ lit "x" ++ py_str_int (height md) |} in
     w <- get ;;
     let id :=
       match document_id with
       | Some s => if py_truthy s then s else lit "doc_img_" ++ py_str_int (w_time w)
       | None => lit "doc_img_" ++ py_str_int (w_time w)
       end in
     document <- lift (Document_new id title (image_path page) 1 [page] COMPLETED meta) ;;
     ret (update_page_references document))
    (fun _ => raise (ImageProcessingError (lit "Document creation failed"))).

(** [except ImageProcessingError: raise / except Exception: raise ImageProcessingError]. *)
Definition reraise_processing {A} (e : Exc) : M A :=
  match e with
  | ImageProcessingError _ => raise e
  | _ => raise (ImageProcessingError (lit "Processing failed"))
  end.

Definition process (cfg : Config) (file_path : pystr) (workspace : option pystr)
    (output_format : option pystr) (document_id : option pystr) : M Document :=
  try_except
    (validate_file cfg file_path ;;;
     ensure_directories cfg workspace ;;;
     '(page, _, _) <- process_image_async cfg file_path workspace output_format ;;
     create_document page file_path document_id)
    reraise_processing.

Definition process_sync (cfg : Config) (file_path : pystr) (workspace : option pystr)
    (output_format : option pystr) (document_id : option pystr) : M Document :=
  try_except
    (validate_file cfg file_path ;;;
     ensure_directories cfg workspace ;;;
     '(page, _, _) <- process_image_sync cfg file_path workspace output_format ;;
     create_document page file_path document_id)
    reraise_processing.

(* ------------------------------------------------------------------------- *)
(** ** The front ends: the REST endpoint (api.py) and the CLI (cli.py) *)

Record UploadFile := mkUpload {
  up_filename : option pystr;
  up_size : option Z;           (* file.size as reported by the server *)
  up_content : Content;
  up_length : Z                 (* len(await file.read()) *)
}.

Record ProcessImageResponse := mkResponse {
  success : bool;
  response_document : Document
}.

Definition supported_output_formats : list pystr := [lit "webp"; lit "jpeg"].

Definition in_formats (f : option pystr) : bool :=
  match f with
  | Some s => existsb (pystr_eqb s) supported_output_formats
  | None => false
  end.

(** [POST /process_image/]. [ImageServiceConfig] has no [max_file_size]
    field, so reading [config.max_file_size] raises [AttributeError]. *)
Definition api_process_image (cfg : Config) (file : UploadFile) (workspace : option pystr)
    (output_format : option pystr) (document_id : option pystr) : M ProcessImageResponse :=
  try_except
    (match up_filename file with
     | Some filename =>
         if negb (py_truthy filename) then raise (HTTPException 400)
         else
           (match up_size file with
            | Some n => if n =? 0 then ret tt else raise (AttributeError (lit "max_file_size"))
            | None => ret tt
            end) ;;;
           (if in_formats output_format then ret tt else raise (HTTPException 400)) ;;;
           w <- get ;;
           let temp_file_path := w_tmp_name w ++ py_lower (path_suffix filename) in
           write_file temp_file_path
             (mkFile true (up_length file) (now_mtime w) (up_content file))
             (EvTempWrite temp_file_path) ;;;
           try_finally
             (document <- process cfg temp_file_path workspace output_format document_id ;;
              ret (mkResponse true document))
             (w' <- get ;;
              match lookup w' temp_file_path with
              | Some _ => remove_file temp_file_path
              | None => ret tt
              end)
     | None => raise (HTTPException 400)
     end)
    (fun e => match e with
              | ImageProcessingError _ => raise (HTTPException 422)
              | HTTPException c => raise (HTTPException c)
              | _ => raise (HTTPException 500)
              end).

(** [image_service process]: the checks and the processing call (the printing
    of the result that follows is not modelled). *)
Definition cli_process (cfg : Config) (image_path : pystr) (workspace : option pystr)
    (output_format : pystr) (document_id : option pystr) : M Document :=
  try_except
    (w <- get ;;
     match lookup w image_path with
     | None => raise (TyperExit 1)
     | Some _ =>
         if negb (in_formats (Some output_format)) then raise (TyperExit 1)
         else process_sync cfg (absolute w image_path) workspace (Some output_format) document_id
     end)
    (fun _ => raise (TyperExit 1)).

(* ------------------------------------------------------------------------- *)
(** ** [Document.get_page] (models.py) *)

Fixpoint find_page (n : Z) (ps : list Page) : option Page :=
  match ps with
  | [] => None
  | p :: ps' => if page_number p =? n then Some p else find_page n ps'
  end.

Definition get_page (d : Document) (n : Z) : option Page := find_page n (pages d).

(* ------------------------------------------------------------------------- *)
(** ** [ImageStorage.copy_original_file] (storage.py) *)




(* ------------------------------------------------------------------------- *)
(** ** [ImageStorage.get_storage_info] (storage.py) *)

(** [fnmatch] of one path component, as [Path.glob] applies it: ['*'] matches
    any run of characters, ['?'] one character, every other character of the
    patterns used here (no ['[']) only itself; braces are not expanded. *)
Fixpoint fnmatch (pat s : pystr) : bool :=
  match pat with
  | [] => match s with [] => true | _ => false end
  | c :: pat' =>
      if c =? 42 then
        (fix star (s : pystr) : bool :=
           fnmatch pat' s || match s with [] => false | _ :: s' => star s' end) s
      else match s with
           | [] => false
           | c' :: s' => ((c =? 63) || (c =? c')) && fnmatch pat' s'
           end
  end.

Fixpoint undup (l : list pystr) : list pystr :=
  match l with
  | [] => []
  | x :: l' => if existsb (pystr_eqb x) l' then undup l' else x :: undup l'
  end.

(** [Path(dir).glob(pattern)]: the entries directly inside [dir] whose name
    matches. *)
Definition glob (w : World) (dir pattern : pystr) : list pystr :=
  undup (filter (fun k => pystr_eqb (path_parent k) (absolute w dir) && fnmatch pattern (path_name k))
                (map fst (w_files w))).

Definition path_exists (w : World) (p : pystr) : bool :=
  match lookup w p with Some _ => true | None => false end.

Definition image_glob : pystr := lit "img_*.{webp,jpg,jpeg,png}".
Definition thumbnail_glob : pystr := lit "thumb_*.jpg".

Record StorageInfo := mkStorageInfo {
  si_image_store_path : pystr;
  si_thumbnail_path : pystr;
  si_image_store_exists : bool;
  si_thumbnail_path_exists : bool;
  si_image_count : option Z;
  si_thumbnail_count : option Z
}.

Definition get_storage_info (cfg : Config) (w : World) (workspace : option pystr) : StorageInfo :=
  let image_store_path := get_image_store_path cfg workspace in
  let thumbnail_path := get_thumbnail_path cfg workspace in
  {| si_image_store_path := image_store_path;
     si_thumbnail_path := thumbnail_path;
     si_image_store_exists := path_exists w image_store_path;
     si_thumbnail_path_exists := path_exists w thumbnail_path;
     si_image_count :=
       if path_exists w image_store_path
       then Some (Z.of_nat (length (glob w image_store_path image_glob))) else None;
     si_thumbnail_count :=
       if path_exists w thumbnail_path
       then Some (Z.of_nat (length (glob w thumbnail_path thumbnail_glob))) else None |}.

(* ------------------------------------------------------------------------- *)
(** ** [MetadataExtractor.get_processing_recommendations] (metadata.py) *)

(** The returned dict; keys the code does not set are [None]. The [except]
    branch returns only the two flags. *)
Record Recommendations := mkRecommendations {
  needs_resize : bool;
  needs_mode_conversion : bool;
  recommended_format : option pystr;
  estimated_output_size : option Z;
  new_size : option (Z * Z);
  target_mode : option pystr
}.

Definition get_processing_recommendations (cfg : Config) (image : Image) : Recommendations :=
  let width := img_width image in
  let height := img_height image in
  let resized :=
    if (max_width cfg <? width) || (max_height cfg <? height) then
      match py_truediv (max_width cfg) width, py_truediv (max_height cfg) height with
      | Ok a, Ok b =>
          let ratio := py_min a b in
          Ok (Some (py_int (py_float width * ratio)%float, py_int (py_float height * ratio)%float))
      | Err e, _ => Err e
      | _, Err e => Err e
      end
    else Ok None in
  match resized with
  | Err _ => mkRecommendations false false None None None None
  | Ok ns =>
      let conv := match img_mode image with ModeRGBA | ModeLA | ModeP => true | _ => false end in
      mkRecommendations (match ns with Some _ => true | None => false end) conv
        (Some (if check_transparency image then lit "webp"
               else match img_mode image with
                    | ModeL => lit "jpeg"
                    | _ => default_output_format cfg
                    end))
        (Some 0) ns (if conv then Some (lit "RGB") else None)
  end.

(* ------------------------------------------------------------------------- *)
(** ** [image_service validate] (cli.py) *)

(** The rows of the "Image Information" table. *)
Record ValidateInfo := mkValidateInfo {
  vi_file_path : pystr;
  vi_file_size : Z;
  vi_width : Z;
  vi_height : Z;
  vi_mode : pystr;
  vi_format : pystr;
  vi_needs_resize : bool;
  vi_new_size : option (Z * Z)
}.

Definition cli_validate (cfg : Config) (image_path : pystr) : M ValidateInfo :=
  try_except
    (validate_file cfg image_path ;;;
     image <- load_image image_path ;;
     w <- get ;;
     file_size <- (match lookup w image_path with
                   | Some e => ret (fe_size e)
                   | None => raise OSError
                   end) ;;
     let '(max_w, max_h) := pdf_max_image_size cfg in
     let needs_resize := (max_w <? img_width image) || (max_h <? img_height image) in
     new_wh <- (if needs_resize then
                  a <- lift (py_truediv max_w (img_width image)) ;;
                  b <- lift (py_truediv max_h (img_height image)) ;;
                  let ratio := py_min a b in
                  ret (Some (py_int (py_float (img_width image) * ratio)%float,
                             py_int (py_float (img_height image) * ratio)%float))
                else ret None) ;;
     ret {| vi_file_path := image_path; vi_file_size := file_size;
            vi_width := img_width image; vi_height := img_height image;
            vi_mode := mode_name (img_mode image);
            vi_format := match img_format image with Some f => f | None => lit "Unknown" end;
            vi_needs_resize := needs_resize; vi_new_size := new_wh |})
    (fun _ => raise (TyperExit 1)).

(* ------------------------------------------------------------------------- *)
(** ** Reading configuration attributes by name: [GET /formats], [GET /config]
    (api.py) and [image_service formats] (cli.py) *)

Inductive PyValue :=
| VInt (n : Z)
| VStr (s : pystr)
| VBool (b : bool)
| VStrList (l : list pystr)
| VPair (a b : Z)
| VOther.                               (* an attribute whose value is not modelled *)

(** [getattr(config, name)] on an [ImageServiceConfig]: its fields, its
    property and its methods; any other name raises [AttributeError]
    (pydantic's own [BaseSettings] methods, which this code never reads, are
    not listed). *)
Definition config_attrs (cfg : Config) : list (pystr * PyValue) :=
  [(lit "max_width", VInt (max_width cfg)); (lit "max_height", VInt (max_height cfg));
   (lit "jpeg_quality", VInt (jpeg_quality cfg)); (lit "webp_quality", VInt (webp_quality cfg));
   (lit "thumbnail_size", VInt (thumbnail_size cfg));
   (lit "supported_extensions", VStrList (supported_extensions cfg));
   (lit "workspace_base", VStr (workspace_base cfg));
   (lit "image_store_folder", VStr (image_store_folder cfg));
   (lit "thumbnail_folder", VStr (thumbnail_folder cfg));
   (lit "api_host", VOther); (lit "api_port", VOther); (lit "api_title", VOther);
   (lit "api_version", VOther);
   (lit "enable_thumbnails", VBool (enable_thumbnails cfg));
   (lit "enable_exif_extraction", VBool (enable_exif_extraction cfg));
   (lit "default_output_format", VStr (default_output_format cfg));
   (lit "log_level", VOther);
   (lit "pdf_max_image_size", VPair (max_width cfg) (max_height cfg));
   (lit "get_workspace_path", VOther); (lit "get_image_store_path", VOther);
   (lit "get_thumbnail_path", VOther); (lit "ensure_directories", VOther);
   (lit "is_supported_format", VOther)].

Definition config_getattr (cfg : Config) (name : pystr) : Result PyValue :=
  match assoc name (config_attrs cfg) with
  | Some v => Ok v
  | None => Err (AttributeError name)
  end.

Definition get_supported_formats (cfg : Config) : list pystr := supported_extensions cfg.

(** [GET /formats]: any exception is answered with HTTP 500. *)
Definition api_get_supported_formats (cfg : Config) : Result (list pystr * PyValue * PyValue) :=
  let formats := get_supported_formats cfg in
  match config_getattr cfg (lit "max_file_size") with
  | Err _ => Err (HTTPException 500)
  | Ok max_file_size =>
      match config_getattr cfg (lit "default_output_format") with
      | Err _ => Err (HTTPException 500)
      | Ok dof => Ok (formats, max_file_size, dof)
      end
  end.

(** [GET /config]: the dict's values are read in order. *)
Definition api_get_service_config (cfg : Config) : Result (list PyValue) :=
  let fix read (names : list pystr) : Result (list PyValue) :=
    match names with
    | [] => Ok []
    | n :: ns =>
        match config_getattr cfg n with
        | Err e => Err e
        | Ok v => match read ns with Err e => Err e | Ok vs => Ok (v :: vs) end
        end
    end in
  match read (map lit ["pdf_max_image_size"; "thumbnail_size"; "supported_extensions";
                       "default_output_format"; "enable_thumbnails"; "image_quality"]%string) with
  | Err _ => Err (HTTPException 500)
  | Ok vs => Ok vs
  end.

Definition format_descriptions : list (pystr * pystr) :=
  [(lit ".jpg", lit "JPEG - Joint Photographic Experts Group");
   (lit ".jpeg", lit "JPEG - Joint Photographic Experts Group");
   (lit ".png", lit "PNG - Portable Network Graphics");
   (lit ".webp", lit "WebP - Google's image format");
   (lit ".bmp", lit "BMP - Bitmap image file");
   (lit ".tiff", lit "TIFF - Tagged Image File Format")].

(** [image_service formats]: the rows of the format table, which is printed,
    and the outcome of the lines that follow it. *)
Definition cli_formats (cfg : Config) : list (pystr * pystr) * Result unit :=
  let supported := get_supported_formats cfg in
  let rows :=
    map (fun ext => (ext, match assoc ext format_descriptions with
                          | Some d => d
                          | None => lit "Supported image format"
                          end)) supported in
  (rows,
   match config_getattr cfg (lit "max_file_size") with
   | Err _ => Err (TyperExit 1)
   | Ok _ => Ok tt
   end).

(* ------------------------------------------------------------------------- *)
(** ** Definitions used to state the specification's wording *)

Definition is_surrogate (c : Z) : bool := (55296 <=? c) && (c <=? 57343).

Definition is_hex_char (c : Z) : bool := existsb (Z.eqb c) MD5.hex_alphabet.

(** "a short random-hex token prefixed doc_". *)
Definition is_doc_hex_token (s : pystr) : bool :=
  match s with
  | 100 :: 111 :: 99 :: 95 :: rest => py_truthy rest && forallb is_hex_char rest
  | _ => false
  end.

(** The size the specification describes: each scaled side rounded to the
    nearest integer. *)
Definition spec_rounded_size (cfg : Config) (w h : Z) : Z * Z :=
  let ratio := py_min (py_float (max_width cfg) / py_float w)%float
                      (py_float (max_height cfg) / py_float h)%float in
  (py_round (py_float w * ratio)%float, py_round (py_float h * ratio)%float).

(** The size the code computes: each scaled side truncated by [int()]. *)
Definition truncated_size (cfg : Config) (w h : Z) : Z * Z :=
  let ratio := py_min (py_float (max_width cfg) / py_float w)%float
                      (py_float (max_height cfg) / py_float h)%float in
  (py_int (py_float w * ratio)%float, py_int (py_float h * ratio)%float).

(** The extension [generate_filename] appends. *)
Definition filename_extension (format : pystr) : pystr :=
  if pystr_eqb (py_lower format) (lit "jpeg") then lit "jpg" else py_lower format.

(** All words of length [k] over [alpha]. *)
Fixpoint all_words {A} (alpha : list A) (k : nat) : list (list A) :=
  match k with
  | O => [[]]
  | Datatypes.S k' => flat_map (fun c => map (cons c) (all_words alpha k')) alpha
  end.

(** Worlds used in the concrete runs below. *)
Definition empty_world : World := {|
  w_files := []; w_cwd := lit "/srv"; w_unwritable := []; w_mkdir_fails := false;
  w_time := 1700000000; w_encoded_size := 2048; w_tmp_name := lit "/tmp/upload_q1";
  w_log := [] |}.

Definition rgb_image (w h : Z) : Image := {|
  img_mode := ModeRGB; img_width := w; img_height := h; img_pixels := Raw [];
  img_palette := []; img_transparency := None; img_format := Some (lit "PNG");
  img_exif := [] |}.

Definition photo_world : World := {|
  w_files := [(lit "/srv/photo.png",
               mkFile true 5120 (lit "1700000000.25") (CBytes (Some (rgb_image 640 480))))];
  w_cwd := lit "/srv"; w_unwritable := []; w_mkdir_fails := false;
  w_time := 1700000000; w_encoded_size := 2048; w_tmp_name := lit "/tmp/upload_q1";
  w_log := [] |}.

(** The same world with the thumbnail directory of the default workspace
    read-only. *)
Definition thumb_locked_world : World := {|
  w_files := w_files photo_world; w_cwd := w_cwd photo_world;
  w_unwritable := [lit "/srv/workspace_X/PlanoraAgent/image_store/thumbnails"];
  w_mkdir_fails := false; w_time := w_time photo_world;
  w_encoded_size := w_encoded_size photo_world; w_tmp_name := w_tmp_name photo_world;
  w_log := [] |}.

(** The default configuration with [thumbnail_size = 0]: [Image.thumbnail]
    then divides by zero. *)
Definition zero_thumbnail_config : Config := {|
  max_width := max_width default_config; max_height := max_height default_config;
  jpeg_quality := jpeg_quality default_config; webp_quality := webp_quality default_config;
  thumbnail_size := 0;
  supported_extensions := supported_extensions default_config;
  workspace_base := workspace_base default_config;
  image_store_folder := image_store_folder default_config;
  thumbnail_folder := thumbnail_folder default_config;
  enable_thumbnails := true;
  enable_exif_extraction := enable_exif_extraction default_config;
  default_output_format := default_output_format default_config |}.

(** A 1x1 image whose only pixel is fully transparent black, in "LA" and
    in "RGBA". *)
Definition la_clear_pixel : Image := {|
  img_mode := ModeLA; img_width := 1; img_height := 1; img_pixels := Raw [[0; 0]];
  img_palette := []; img_transparency := None; img_format := Some (lit "PNG");
  img_exif := [] |}.

Definition rgba_clear_pixel : Image := {|
  img_mode := ModeRGBA; img_width := 1; img_height := 1; img_pixels := Raw [[0; 0; 0; 0]];
  img_palette := []; img_transparency := None; img_format := Some (lit "PNG");
  img_exif := [] |}.

Definition sample_page : Page :=
  mkPage 1 None (lit "workspace_X/PlanoraAgent/image_store/img_0123456789ab.webp") None
    (mkImageMetadata 640 480 (lit "RGB") (lit "Unknown") 2048 false None) None None.

(** The id [create_document] gives a document: the caller's id when it is
    a non-empty string, ["doc_img_" + str(int(time.time()))] otherwise. *)
Definition document_id_of (document_id : option pystr) (w : World) : pystr :=
  match document_id with
  | Some s => if py_truthy s then s else lit "doc_img_" ++ py_str_int (w_time w)
  | None => lit "doc_img_" ++ py_str_int (w_time w)
  end.

(** What the pipeline steps leave alone: the working directory, the
    unwritable directories, the mkdir behaviour, the clock, and every path
    that exists keeps existing. *)
Definition keeps (w w' : World) : Prop :=
  w_cwd w' = w_cwd w /\ w_unwritable w' = w_unwritable w /\
  w_mkdir_fails w' = w_mkdir_fails w /\ w_time w' = w_time w /\
  (forall p, lookup w p <> None -> lookup w' p <> None).

Definition Keeps {A} (m : M A) : Prop := forall w, keeps w (snd (m w)).

(** An upload of a PNG scan of known size. *)
Definition scan_upload : UploadFile :=
  mkUpload (Some (lit "scan.png")) None (CBytes (Some (rgb_image 640 480))) 5120.


(** The exceptions a computation can raise all satisfy [P]. *)
Definition ErrsIn {A} (P : Exc -> Prop) (m : M A) : Prop :=
  forall w e w', m w = (Err e, w') -> P e.

(** Errors the body of [POST /process_image/] raises before its handler:
    an [HTTPException] raised there is always a 400. *)
Definition api_body_error (e : Exc) : Prop :=
  match e with HTTPException c => c = 400 | _ => True end.

(* ========================================================================= *)
(** * Proofs *)

(** ** Strings *)

Lemma pystr_eqb_eq (s t : pystr) : pystr_eqb s t = true <-> s = t.
Proof.
  revert t; induction s as [|a s IH]; intros [|b t]; simpl; split; intro H;
    try discriminate; try reflexivity.
  - apply andb_true_iff in H as [H1 H2]. apply Z.eqb_eq in H1.
    apply IH in H2. subst. reflexivity.
  - inversion H; subst. rewrite Z.eqb_refl. simpl. apply IH. reflexivity.
Qed.

Lemma pystr_eqb_refl (s : pystr) : pystr_eqb s s = true.
Proof. apply pystr_eqb_eq. reflexivity. Qed.

Lemma utf8_char_some (c : Z) : is_surrogate c = false -> exists b, utf8_char c = Some b.
Proof.
  unfold is_surrogate, utf8_char. intro H.
  destruct (c <? 128); [eexists; reflexivity|].
  destruct (c <? 2048); [eexists; reflexivity|].
  rewrite H. destruct (c <? 65536); eexists; reflexivity.
Qed.

Lemma utf8_encode_some (s : pystr) :
  (forall c, In c s -> is_surrogate c = false) -> exists bs, utf8_encode s = Some bs.
Proof.
  induction s as [|c s IH]; intro H; simpl.
  - eexists; reflexivity.
  - destruct (utf8_char_some c (H c (or_introl eq_refl))) as [b Hb]. rewrite Hb.
    destruct IH as [bs Hbs]. { intros x Hx. apply H. right. exact Hx. }
    rewrite Hbs. eexists; reflexivity.
Qed.

Lemma utf8_encode_ascii (s : pystr) :
  (forall c, In c s -> 0 <= c < 128) -> utf8_encode s = Some s.
Proof.
  induction s as [|c s IH]; intro H; simpl; [reflexivity|].
  unfold utf8_char. assert (Hc := H c (or_introl eq_refl)).
  replace (c <? 128) with true by (symmetry; apply Z.ltb_lt; lia).
  rewrite IH by (intros x Hx; apply H; right; exact Hx). reflexivity.
Qed.

(** ** The MD5 hex digest: 32 characters of the hex alphabet *)

Lemma digest_length (m : list Z) : length (MD5.digest m) = 16%nat.
Proof.
  unfold MD5.digest. destruct (MD5.blocks _ _ _) as [[[a b] c] d]. reflexivity.
Qed.

Lemma hexdigest_length (m : list Z) : length (MD5.hexdigest m) = 32%nat.
Proof.
  unfold MD5.hexdigest.
  assert (H : forall l, length (flat_map MD5.byte_hex l) = (2 * length l)%nat).
  { induction l as [|b l IH]; simpl; [reflexivity|]. rewrite IH. lia. }
  rewrite H, digest_length. reflexivity.
Qed.

Lemma hex_digit_in (n : Z) : In (MD5.hex_digit n) MD5.hex_alphabet.
Proof.
  unfold MD5.hex_digit. apply nth_In.
  assert (0 <= n mod 16 < 16) by (apply Z.mod_pos_bound; lia).
  change (length MD5.hex_alphabet) with 16%nat. lia.
Qed.

Lemma hexdigest_chars (m : list Z) c : In c (MD5.hexdigest m) -> In c MD5.hex_alphabet.
Proof.
  unfold MD5.hexdigest. intro H. apply in_flat_map in H as [b [_ Hb]].
  simpl in Hb. destruct Hb as [<- | [<- | []]]; apply hex_digit_in.
Qed.

Lemma firstn_hexdigest (m : list Z) :
  length (firstn 12 (MD5.hexdigest m)) = 12%nat /\
  (forall c, In c (firstn 12 (MD5.hexdigest m)) -> In c MD5.hex_alphabet).
Proof.
  split.
  - rewrite length_firstn, hexdigest_length. reflexivity.
  - intros c Hc. apply hexdigest_chars with m.
    rewrite <- (firstn_skipn 12 (MD5.hexdigest m)). apply in_or_app. left. exact Hc.
Qed.

(** ** Counting: no injection into the words of a fixed length *)

Lemma flat_map_cons_length {A} (alpha : list A) (L : list (list A)) :
  length (flat_map (fun c => map (cons c) L) alpha) = (length alpha * length L)%nat.
Proof.
  induction alpha as [|c alpha IH]; simpl; [reflexivity|].
  rewrite length_app, length_map, IH. reflexivity.
Qed.

Lemma all_words_length {A} (alpha : list A) k :
  length (all_words alpha k) = (length alpha ^ k)%nat.
Proof.
  induction k as [|k IH]; simpl; [reflexivity|].
  rewrite flat_map_cons_length, IH. reflexivity.
Qed.

Lemma all_words_in {A} (alpha : list A) k (l : list A) :
  length l = k -> (forall c, In c l -> In c alpha) -> In l (all_words alpha k).
Proof.
  revert l; induction k as [|k IH]; intros [|a l] Hl Hc; simpl in *;
    try discriminate.
  - left; reflexivity.
  - apply in_flat_map. exists a. split; [apply Hc; left; reflexivity|].
    apply in_map. apply IH; [congruence|]. intros c Hin. apply Hc. right. exact Hin.
Qed.

Lemma no_injection_into_words {A} (alpha : list A) k (f : nat -> list A) :
  (forall n, length (f n) = k) -> (forall n c, In c (f n) -> In c alpha) -> ~ Injective f.
Proof.
  intros Hl Hc Hinj.
  set (N := (length alpha ^ k)%nat).
  pose proof (Injective_map_NoDup Hinj (seq_NoDup (Datatypes.S N) 0)) as Hnd.
  assert (Hincl : incl (map f (seq 0 (Datatypes.S N))) (all_words alpha k)).
  { intros x Hx. apply in_map_iff in Hx as [n [<- _]].
    apply all_words_in; [apply Hl | intros c; apply Hc]. }
  pose proof (NoDup_incl_length Hnd Hincl) as Hle.
  rewrite length_map, length_seq, all_words_length in Hle. unfold N in Hle. lia.
Qed.

(** ** [generate_filename] *)

Lemma existsb_false_forall {A} (f : A -> bool) l :
  existsb f l = false -> forall x, In x l -> f x = false.
Proof.
  intros H x Hx. destruct (f x) eqn:E; [|reflexivity].
  assert (existsb f l = true) by (apply existsb_exists; eauto). congruence.
Qed.

Lemma generate_filename_ok w p fmt bytes :
  utf8_encode (hash_input w p) = Some bytes ->
  generate_filename w p fmt =
  Ok (lit "img_" ++ firstn 12 (MD5.hexdigest bytes) ++ lit "." ++ filename_extension fmt).
Proof. intro H. unfold generate_filename. rewrite H. reflexivity. Qed.

Lemma generate_filename_encodable w p fmt :
  existsb is_surrogate (hash_input w p) = false ->
  exists bytes, utf8_encode (hash_input w p) = Some bytes /\
    generate_filename w p fmt =
    Ok (lit "img_" ++ firstn 12 (MD5.hexdigest bytes) ++ lit "." ++ filename_extension fmt).
Proof.
  intro H. destruct (utf8_encode_some (hash_input w p)) as [bytes Hb].
  { apply existsb_false_forall. exact H. }
  exists bytes. split; [exact Hb|]. apply generate_filename_ok. exact Hb.
Qed.

Lemma hash_input_absent w p : lookup w p = None -> hash_input w p = p ++ lit "_".
Proof. intro H. unfold hash_input. rewrite H. reflexivity. Qed.

Lemma hash_input_same_mtime w1 w2 p :
  option_map fe_mtime (lookup w1 p) = option_map fe_mtime (lookup w2 p) ->
  hash_input w1 p = hash_input w2 p.
Proof.
  unfold hash_input. destruct (lookup w1 p), (lookup w2 p); simpl; intro H;
    try discriminate; try reflexivity.
  injection H as ->. reflexivity.
Qed.

Lemma app_same_length_inv {A} (h1 h2 r1 r2 : list A) :
  length h1 = length h2 -> h1 ++ r1 = h2 ++ r2 -> h1 = h2.
Proof.
  revert h2; induction h1 as [|a h1 IH]; intros [|b h2] Hl He; simpl in *;
    try discriminate; try reflexivity.
  injection He as -> He. f_equal. apply IH; [congruence | exact He].
Qed.

Lemma generate_filename_absent_ascii w p fmt :
  lookup w p = None -> forallb (fun c => (0 <=? c) && (c <? 128)) p = true ->
  generate_filename w p fmt =
  Ok (lit "img_" ++ firstn 12 (MD5.hexdigest (p ++ lit "_")) ++ lit "." ++ filename_extension fmt).
Proof.
  intros Hl Ha. apply generate_filename_ok. rewrite hash_input_absent by exact Hl.
  apply utf8_encode_ascii. intros c Hc. apply in_app_or in Hc as [Hc | Hc].
  - rewrite forallb_forall in Ha. specialize (Ha c Hc).
    apply andb_true_iff in Ha as [H1 H2]. apply Z.leb_le in H1. apply Z.ltb_lt in H2. lia.
  - change (lit "_") with [95] in Hc. destruct Hc as [<- | []]. lia.
Qed.

Lemma empty_world_lookup p : lookup empty_world p = None.
Proof. reflexivity. Qed.

Lemma repeat_a_ascii n : forallb (fun c => (0 <=? c) && (c <? 128)) (repeat 97 n) = true.
Proof. induction n as [|n IH]; simpl; [reflexivity | exact IH]. Qed.

(** C4 (counterexample): distinct paths do not always get distinct names.  The
    names carry 12 hex characters, so among the paths "", "a", "aa", ...
    (none of them on disk) two share a name. *)
Lemma generate_filename_collides :
  ~ (forall (w : World) (p1 p2 fmt : pystr),
       p1 <> p2 -> generate_filename w p1 fmt <> generate_filename w p2 fmt).
Proof.
  intro H.
  set (f := fun n => firstn 12 (MD5.hexdigest (repeat 97 n ++ lit "_"))).
  apply (no_injection_into_words MD5.hex_alphabet 12 f).
  - intro n. apply firstn_hexdigest.
  - intro n. apply firstn_hexdigest.
  - intros n m Hnm. destruct (Nat.eq_dec n m) as [Heq | Hne]; [exact Heq | exfalso].
    apply (H empty_world (repeat 97 n) (repeat 97 m) (lit "webp")).
    + intro Heq. apply Hne.
      rewrite <- (repeat_length 97 n), <- (repeat_length 97 m), Heq. reflexivity.
    + rewrite !generate_filename_absent_ascii
        by (apply empty_world_lookup || apply repeat_a_ascii).
      fold (f n). fold (f m). rewrite Hnm. reflexivity.
Qed.

(** C4 (amended): for a path whose hashed string has no lone surrogate, the
    name is "img_", the first 12 hex characters of the MD5 of
    [path + "_" + mtime] (mtime empty for a missing file) and the
    format-directed extension; a file whose existence and mtime are unchanged
    gets the same name; and two equal names come from hashed strings whose
    truncated digests coincide. *)
Theorem generate_filename_spec :
  (forall w p fmt,
     existsb is_surrogate (hash_input w p) = false ->
     exists bytes, utf8_encode (hash_input w p) = Some bytes /\
       generate_filename w p fmt =
       Ok (lit "img_" ++ firstn 12 (MD5.hexdigest bytes) ++ lit "." ++ filename_extension fmt))
  /\ (forall w1 w2 p fmt,
        option_map fe_mtime (lookup w1 p) = option_map fe_mtime (lookup w2 p) ->
        generate_filename w1 p fmt = generate_filename w2 p fmt)
  /\ (forall w1 w2 p1 p2 fmt name,
        generate_filename w1 p1 fmt = Ok name -> generate_filename w2 p2 fmt = Ok name ->
        exists b1 b2, utf8_encode (hash_input w1 p1) = Some b1 /\
          utf8_encode (hash_input w2 p2) = Some b2 /\
          firstn 12 (MD5.hexdigest b1) = firstn 12 (MD5.hexdigest b2)).
Proof.
  split; [|split].
  - intros w p fmt H. apply generate_filename_encodable. exact H.
  - intros w1 w2 p fmt H. unfold generate_filename.
    rewrite (hash_input_same_mtime w1 w2 p H). reflexivity.
  - intros w1 w2 p1 p2 fmt name H1 H2.
    destruct (utf8_encode (hash_input w1 p1)) as [b1|] eqn:E1;
      [|unfold generate_filename in H1; rewrite E1 in H1; discriminate].
    destruct (utf8_encode (hash_input w2 p2)) as [b2|] eqn:E2;
      [|unfold generate_filename in H2; rewrite E2 in H2; discriminate].
    exists b1, b2. split; [reflexivity | split; [reflexivity|]].
    rewrite (generate_filename_ok _ _ fmt _ E1) in H1.
    rewrite (generate_filename_ok _ _ fmt _ E2) in H2.
    rewrite <- H2 in H1.
    apply (f_equal (fun r => match r with Ok x => x | Err _ => [] end)) in H1.
    cbv beta iota in H1. apply app_inv_head in H1.
    apply (app_same_length_inv _ _ _ _ (eq_trans (proj1 (firstn_hexdigest b1))
                                          (eq_sym (proj1 (firstn_hexdigest b2)))) H1).
Qed.

Lemma generate_filename_spec_witness :
  existsb is_surrogate (hash_input photo_world (lit "photo.png")) = false /\
  exists bytes, utf8_encode (hash_input photo_world (lit "photo.png")) = Some bytes /\
    generate_filename photo_world (lit "photo.png") (lit "JPEG") =
    Ok (lit "img_" ++ firstn 12 (MD5.hexdigest bytes) ++ lit "." ++ filename_extension (lit "JPEG")).
Proof.
  split; [vm_compute; reflexivity|].
  apply (proj1 generate_filename_spec). vm_compute. reflexivity.
Defined.

(** C10 (counterexample): a path that does not exist but holds a lone
    surrogate (as [os.fsdecode] produces for undecodable bytes) makes the
    UTF-8 [.encode()] raise. *)
Lemma generate_filename_surrogate_raises :
  lookup empty_world [56575] = None /\
  generate_filename empty_world [56575] (lit "webp") = Err UnicodeEncodeError.
Proof. split; vm_compute; reflexivity. Qed.

(** C10 (amended): for a path that does not exist and holds no lone
    surrogate, [generate_filename] does not raise; it hashes the path followed
    by "_" and an empty mtime, the name is "img_" + 12 lowercase hex
    characters + "." + extension, and it depends on the path and format only. *)
Theorem generate_filename_missing_path w p fmt :
  lookup w p = None -> existsb is_surrogate p = false ->
  exists h bytes,
    utf8_encode (p ++ lit "_") = Some bytes /\
    h = firstn 12 (MD5.hexdigest bytes) /\
    generate_filename w p fmt = Ok (lit "img_" ++ h ++ lit "." ++ filename_extension fmt) /\
    length h = 12%nat /\ forallb is_hex_char h = true /\
    (forall w', lookup w' p = None -> generate_filename w' p fmt = generate_filename w p fmt).
Proof.
  intros Hl Hs.
  assert (Hs' : existsb is_surrogate (hash_input w p) = false).
  { rewrite hash_input_absent by exact Hl. rewrite existsb_app, Hs. reflexivity. }
  destruct (generate_filename_encodable w p fmt Hs') as [bytes [Hb Hg]].
  rewrite hash_input_absent in Hb by exact Hl.
  exists (firstn 12 (MD5.hexdigest bytes)), bytes.
  destruct (firstn_hexdigest bytes) as [Hlen Hchars].
  repeat split; try assumption.
  - apply forallb_forall. intros c Hc. unfold is_hex_char. apply existsb_exists.
    exists c. split; [apply Hchars; exact Hc | apply Z.eqb_refl].
  - intros w' Hl'. unfold generate_filename.
    rewrite (hash_input_absent w' p Hl'), (hash_input_absent w p Hl). reflexivity.
Qed.

Lemma generate_filename_missing_path_witness :
  lookup empty_world (lit "scans/page1.png") = None /\
  existsb is_surrogate (lit "scans/page1.png") = false /\
  exists h bytes,
    utf8_encode (lit "scans/page1.png" ++ lit "_") = Some bytes /\
    h = firstn 12 (MD5.hexdigest bytes) /\
    generate_filename empty_world (lit "scans/page1.png") (lit "webp") =
      Ok (lit "img_" ++ h ++ lit "." ++ filename_extension (lit "webp")) /\
    length h = 12%nat /\ forallb is_hex_char h = true /\
    (forall w', lookup w' (lit "scans/page1.png") = None ->
       generate_filename w' (lit "scans/page1.png") (lit "webp") =
       generate_filename empty_world (lit "scans/page1.png") (lit "webp")).
Proof.
  split; [reflexivity | split; [vm_compute; reflexivity |]].
  apply generate_filename_missing_path; vm_compute; reflexivity.
Defined.

(** ** [optimize_image] *)

Lemma optimize_mode_width im : img_width (optimize_mode im) = img_width im.
Proof.
  unfold optimize_mode. destruct (img_mode im), (img_transparency im); reflexivity.
Qed.

Lemma optimize_mode_height im : img_height (optimize_mode im) = img_height im.
Proof.
  unfold optimize_mode. destruct (img_mode im), (img_transparency im); reflexivity.
Qed.

(** C7: an image within the configured bounds keeps its width and height; the
    size step returns the mode-normalised image itself. *)
Theorem optimize_image_no_upscale cfg im :
  img_width im <= max_width cfg -> img_height im <= max_height cfg ->
  optimize_image cfg im = Ok (optimize_mode im) /\
  img_size (optimize_mode im) = img_size im.
Proof.
  intros Hw Hh. unfold img_size. rewrite optimize_mode_width, optimize_mode_height.
  split; [|reflexivity].
  unfold optimize_image, optimize_size, pdf_max_image_size.
  rewrite optimize_mode_width, optimize_mode_height.
  replace ((max_width cfg <? img_width im) || (max_height cfg <? img_height im)) with false.
  - reflexivity.
  - symmetry. apply orb_false_iff. split; apply Z.ltb_ge; assumption.
Qed.

Lemma optimize_image_no_upscale_witness :
  optimize_image default_config (rgb_image 640 480) =
    Ok (optimize_mode (rgb_image 640 480)) /\
  img_size (optimize_mode (rgb_image 640 480)) = img_size (rgb_image 640 480).
Proof. apply optimize_image_no_upscale; simpl; lia. Defined.

(** C2 (counterexample): the sides are not rounded to the nearest integer.
    A 3000x1000 image under the default 2048x2048 bound becomes 2048x682,
    where rounding 682.67 would give 683. *)
Lemma optimize_image_not_rounded :
  ~ (forall cfg im im',
       max_width cfg < img_width im \/ max_height cfg < img_height im ->
       optimize_image cfg im = Ok im' ->
       img_size im' = spec_rounded_size cfg (img_width im) (img_height im)).
Proof.
  intro H.
  pose proof (H default_config (rgb_image 3000 1000)) as H1.
  destruct (optimize_image default_config (rgb_image 3000 1000)) as [im'|e] eqn:E.
  - specialize (H1 im' (or_introl eq_refl) eq_refl).
    vm_compute in E. injection E as <-. vm_compute in H1. discriminate.
  - vm_compute in E. discriminate.
Qed.

(** C2 (amended): an image over the bound is resized with LANCZOS to
    [int(w * ratio)] x [int(h * ratio)], ratio = min(max_width / w,
    max_height / h) in binary64: each side is truncated toward zero, and a
    side that truncates to 0 makes the resize fail. *)
Theorem optimize_image_downscale cfg im :
  0 < img_width im -> 0 < img_height im ->
  max_width cfg < img_width im \/ max_height cfg < img_height im ->
  optimize_image cfg im =
    match resize (optimize_mode im) (truncated_size cfg (img_width im) (img_height im)) LANCZOS with
    | Ok im' => Ok im'
    | Err _ => Err (ImageProcessingError (lit "Failed to optimize image"))
    end /\
  (forall im', optimize_image cfg im = Ok im' ->
     img_size im' = truncated_size cfg (img_width im) (img_height im) /\
     (img_pixels im' = Resampled LANCZOS (img_width im') (img_height im')
                         (img_pixels (optimize_mode im))
      \/ img_size im' = img_size im)).
Proof.
  intros Hw Hh Hover.
  assert (Heq : optimize_image cfg im =
    match resize (optimize_mode im) (truncated_size cfg (img_width im) (img_height im)) LANCZOS with
    | Ok im' => Ok im'
    | Err _ => Err (ImageProcessingError (lit "Failed to optimize image"))
    end).
  { unfold optimize_image, optimize_size, pdf_max_image_size, py_truediv, truncated_size.
    rewrite optimize_mode_width, optimize_mode_height.
    replace ((max_width cfg <? img_width im) || (max_height cfg <? img_height im)) with true
      by (symmetry; apply orb_true_iff;
          destruct Hover; [left | right]; apply Z.ltb_lt; assumption).
    replace (img_width im =? 0) with false by (symmetry; apply Z.eqb_neq; lia).
    replace (img_height im =? 0) with false by (symmetry; apply Z.eqb_neq; lia).
    reflexivity. }
  split; [exact Heq|].
  intros im' Hok. rewrite Heq in Hok.
  destruct (truncated_size cfg (img_width im) (img_height im)) as [nw nh] eqn:Ets.
  unfold resize in Hok. rewrite optimize_mode_width, optimize_mode_height in Hok.
  unfold img_size.
  destruct ((nw =? img_width im) && (nh =? img_height im)) eqn:Esame.
  - injection Hok as <-. rewrite optimize_mode_width, optimize_mode_height.
    apply andb_true_iff in Esame as [E1 E2]. apply Z.eqb_eq in E1, E2. subst.
    split; [reflexivity | right; reflexivity].
  - destruct ((nw <? 1) || (nh <? 1)); [discriminate|].
    injection Hok as <-. simpl. split; [reflexivity | left; reflexivity].
Qed.

Lemma optimize_image_downscale_witness :
  optimize_image default_config (rgb_image 3000 1000) =
    match resize (optimize_mode (rgb_image 3000 1000)) (truncated_size default_config 3000 1000)
                 LANCZOS with
    | Ok im' => Ok im'
    | Err _ => Err (ImageProcessingError (lit "Failed to optimize image"))
    end /\
  (forall im', optimize_image default_config (rgb_image 3000 1000) = Ok im' ->
     img_size im' = truncated_size default_config 3000 1000 /\
     (img_pixels im' = Resampled LANCZOS (img_width im') (img_height im')
                         (img_pixels (optimize_mode (rgb_image 3000 1000)))
      \/ img_size im' = img_size (rgb_image 3000 1000))).
Proof.
  apply (optimize_image_downscale default_config (rgb_image 3000 1000));
    [simpl; lia | simpl; lia | left; simpl; lia].
Defined.

(** C3 (code bug): an "LA" image is pasted without its alpha band as mask, so
    a fully transparent black pixel stays black; the "RGBA" branch composites
    the same pixel to the white background. *)
Theorem optimize_image_LA_ignores_alpha :
  match optimize_image default_config la_clear_pixel with
  | Ok im => img_mode im = ModeRGB /\ img_pixels im = Raw [[0; 0; 0]]
  | Err _ => False
  end /\
  match optimize_image default_config rgba_clear_pixel with
  | Ok im => img_mode im = ModeRGB /\ img_pixels im = Raw [white]
  | Err _ => False
  end /\
  img_pixels (paste_masked white (image_new_rgb (1, 1) white) la_clear_pixel) = Raw [white].
Proof. vm_compute. repeat split. Qed.

(** ** Metadata *)

(** C1 (code bug): when the first construction fails, the fallback
    [ImageMetadata(..., file_size=0, ...)] is refused by [validate_positive]
    (and by the [format] field for a copied image), so the error propagates:
    here for a file path that is not on disk. *)
Theorem create_image_metadata_fallback_raises :
  lookup empty_world (lit "/srv/missing.png") = None /\
  create_image_metadata default_config empty_world (rgb_image 100 100)
    (lit "/srv/missing.png") None = Err ValidationError.
Proof. split; vm_compute; reflexivity. Qed.

(** Whatever [create_image_metadata] returns has a positive file size: the
    zeroed fallback never comes out. *)
Lemma create_image_metadata_positive cfg w image fp ps m :
  create_image_metadata cfg w image fp ps = Ok m -> 0 < file_size m.
Proof.
  unfold create_image_metadata.
  destruct (match ps with Some s => s | None => _ end) as [wd ht].
  unfold ImageMetadata_new at 1.
  destruct ((wd <=? 0) || (ht <=? 0) || (bm_file_size (extract_basic_metadata w image fp) <=? 0))
    eqn:E.
  - unfold ImageMetadata_new. rewrite Z.leb_refl, !orb_true_r. discriminate.
  - intro H. injection H as <-. simpl.
    apply orb_false_iff in E as [_ E]. apply Z.leb_gt in E. exact E.
Qed.

(** ** What the pipeline steps preserve *)

Lemma keeps_refl w : keeps w w.
Proof. repeat split; auto. Qed.

Lemma keeps_trans w1 w2 w3 : keeps w1 w2 -> keeps w2 w3 -> keeps w1 w3.
Proof.
  intros (Hc1 & Hu1 & Hm1 & Ht1 & Hl1) (Hc2 & Hu2 & Hm2 & Ht2 & Hl2).
  repeat split; try congruence. intros p Hp. apply Hl2, Hl1, Hp.
Qed.

Lemma lookup_set_files w fs ev p : lookup (set_files w fs ev) p = assoc (absolute w p) fs.
Proof. reflexivity. Qed.

Lemma keeps_set_files_cons w k v ev : keeps w (set_files w ((k, v) :: w_files w) ev).
Proof.
  repeat split. intros p Hp. rewrite lookup_set_files. simpl.
  destruct (pystr_eqb (absolute w p) k); [discriminate | exact Hp].
Qed.

Lemma Keeps_ret {A} (a : A) : Keeps (ret a).
Proof. intro w. apply keeps_refl. Qed.

Lemma Keeps_raise {A} e : Keeps (A := A) (raise e).
Proof. intro w. apply keeps_refl. Qed.

Lemma Keeps_get : Keeps get.
Proof. intro w. apply keeps_refl. Qed.

Lemma Keeps_lift {A} (r : Result A) : Keeps (lift r).
Proof. intro w. apply keeps_refl. Qed.

Lemma Keeps_log ev : Keeps (log ev).
Proof. intro w. repeat split. intros p Hp. exact Hp. Qed.

Lemma Keeps_write_file p e ev : Keeps (write_file p e ev).
Proof.
  intro w. unfold write_file.
  destruct (existsb _ _); [apply keeps_refl | apply keeps_set_files_cons].
Qed.

Lemma Keeps_mkdir_p p : Keeps (mkdir_p p).
Proof.
  intro w. unfold mkdir_p.
  destruct (w_mkdir_fails w); [apply keeps_refl|].
  destruct (lookup w p) as [e|]; [destruct (fe_is_file e); apply keeps_refl|].
  apply keeps_set_files_cons.
Qed.

Lemma Keeps_bind {A B} (m : M A) (k : A -> M B) :
  Keeps m -> (forall a, Keeps (k a)) -> Keeps (bind m k).
Proof.
  intros Hm Hk w. specialize (Hm w). unfold bind.
  destruct (m w) as [[a|e] w'] eqn:E; simpl in *; [|exact Hm].
  eapply keeps_trans; [exact Hm | apply Hk].
Qed.

Lemma Keeps_try_except {A} (m : M A) (h : Exc -> M A) :
  Keeps m -> (forall e, Keeps (h e)) -> Keeps (try_except m h).
Proof.
  intros Hm Hh w. specialize (Hm w). unfold try_except.
  destruct (m w) as [[a|e] w'] eqn:E; simpl in *; [exact Hm|].
  eapply keeps_trans; [exact Hm | apply Hh].
Qed.

Create HintDb keeps.
#[export] Hint Resolve Keeps_ret Keeps_raise Keeps_get Keeps_lift Keeps_log
  Keeps_write_file Keeps_mkdir_p : keeps.

Ltac keeps_step :=
  match goal with
  | |- Keeps (bind _ _) => apply Keeps_bind; [|intro]
  | |- Keeps (try_except _ _) => apply Keeps_try_except; [|intro]
  | |- Keeps (let _ := _ in _) => cbv zeta
  | |- Keeps (if ?b then _ else _) => destruct b
  | |- Keeps (match ?x with _ => _ end) => destruct x
  | |- Keeps _ => solve [eauto with keeps]
  end.

Ltac keeps_tac := repeat keeps_step.

Lemma Keeps_ensure_directories cfg ws : Keeps (ensure_directories cfg ws).
Proof. unfold ensure_directories. keeps_tac. Qed.
#[export] Hint Resolve Keeps_ensure_directories : keeps.

Lemma Keeps_validate_file cfg fp : Keeps (validate_file cfg fp).
Proof. unfold validate_file. keeps_tac. Qed.
#[export] Hint Resolve Keeps_validate_file : keeps.

Lemma Keeps_load_image fp : Keeps (load_image fp).
Proof. unfold load_image. keeps_tac. Qed.
#[export] Hint Resolve Keeps_load_image : keeps.

Lemma Keeps_pil_save im p f q ev : Keeps (pil_save im p f q ev).
Proof. unfold pil_save. keeps_tac. Qed.
#[export] Hint Resolve Keeps_pil_save : keeps.

Lemma Keeps_save_image cfg im fp ws f : Keeps (save_image cfg im fp ws f).
Proof. unfold save_image. keeps_tac. Qed.
#[export] Hint Resolve Keeps_save_image : keeps.

Lemma Keeps_create_thumbnail cfg im name ws : Keeps (create_thumbnail cfg im name ws).
Proof. unfold create_thumbnail, create_thumbnail_try. keeps_tac. Qed.
#[export] Hint Resolve Keeps_create_thumbnail : keeps.

Lemma Keeps_process_image_sync cfg fp ws f : Keeps (process_image_sync cfg fp ws f).
Proof. unfold process_image_sync. keeps_tac. Qed.
#[export] Hint Resolve Keeps_process_image_sync : keeps.

Lemma Keeps_create_document page fp did : Keeps (create_document page fp did).
Proof. unfold create_document. keeps_tac. Qed.
#[export] Hint Resolve Keeps_create_document : keeps.

Lemma Keeps_process cfg fp ws f did : Keeps (process cfg fp ws f did).
Proof. unfold process, process_image_async, reraise_processing. keeps_tac. Qed.

Lemma Keeps_process_sync cfg fp ws f did : Keeps (process_sync cfg fp ws f did).
Proof. unfold process_sync, reraise_processing. keeps_tac. Qed.

(** ** Inverting successful runs *)

Lemma bind_ok {A B} (m : M A) (k : A -> M B) w b w' :
  bind m k w = (Ok b, w') -> exists a w1, m w = (Ok a, w1) /\ k a w1 = (Ok b, w').
Proof.
  unfold bind. destruct (m w) as [[a|e] w1]; intro H; [eauto | discriminate].
Qed.

Lemma try_except_ok_raise {A} (m : M A) (h : Exc -> M A) w a w' :
  (forall e w0, exists e', fst (h e w0) = Err e') ->
  try_except m h w = (Ok a, w') -> m w = (Ok a, w').
Proof.
  intros Hh. unfold try_except. destruct (m w) as [[a'|e] w1]; intro H; [exact H|].
  destruct (Hh e w1) as [e' He']. rewrite H in He'. discriminate.
Qed.

Lemma reraise_processing_err {A} e w : exists e', fst (reraise_processing (A := A) e w) = Err e'.
Proof. unfold reraise_processing. destruct e; eexists; reflexivity. Qed.

Lemma Document_new_ok id t fp n ps st md d :
  Document_new id t fp n ps st md = Ok d ->
  d = mkDocument id t fp n ps st md /\ n = Z.of_nat (length ps) /\ 0 < n.
Proof.
  unfold Document_new.
  destruct (is_blank t); [discriminate|].
  destruct (n <=? 0) eqn:En; [discriminate|].
  destruct (Z.of_nat (length ps) =? n) eqn:Ep; [|discriminate].
  intro H. injection H as <-. apply Z.eqb_eq in Ep. apply Z.leb_gt in En.
  repeat split; lia.
Qed.

Lemma create_document_ok page fp did w d w' :
  create_document page fp did w = (Ok d, w') ->
  w' = w /\
  exists meta doc,
    Document_new (document_id_of did w) (path_name fp) (image_path page) 1 [page]
      COMPLETED meta = Ok doc /\ d = update_page_references doc.
Proof.
  intro H. unfold create_document in H.
  apply try_except_ok_raise in H; [|intros e w0; eexists; reflexivity].
  unfold bind, get, lift, ret in H.
  match type of H with
  | context [Document_new ?i ?t ?f ?n ?ps ?st ?md] =>
      destruct (Document_new i t f n ps st md) as [doc|e] eqn:E
  end; [|discriminate].
  injection H as <- <-. split; [reflexivity|].
  eexists _, doc. split; [|reflexivity].
  rewrite <- E. unfold document_id_of. reflexivity.
Qed.

Lemma process_ok cfg fp ws f did w d w' :
  process cfg fp ws f did w = (Ok d, w') ->
  exists page w2, keeps w w2 /\ create_document page fp did w2 = (Ok d, w').
Proof.
  intro H. unfold process in H.
  apply try_except_ok_raise in H; [|intros; apply reraise_processing_err].
  apply bind_ok in H as ([] & w1 & H1 & H).
  apply bind_ok in H as ([] & w2 & H2 & H).
  apply bind_ok in H as ([[page sp] tp] & w3 & H3 & H).
  exists page, w3. split; [|exact H].
  pose proof (Keeps_validate_file cfg fp w) as K1. rewrite H1 in K1.
  pose proof (Keeps_ensure_directories cfg ws w1) as K2. rewrite H2 in K2.
  pose proof (Keeps_process_image_sync cfg fp ws f w2) as K3. unfold process_image_async in H3. rewrite H3 in K3.
  simpl in K1, K2, K3. eauto using keeps_trans.
Qed.

Lemma process_sync_ok cfg fp ws f did w d w' :
  process_sync cfg fp ws f did w = (Ok d, w') ->
  exists page w2, keeps w w2 /\ create_document page fp did w2 = (Ok d, w').
Proof.
  intro H. unfold process_sync in H.
  apply try_except_ok_raise in H; [|intros; apply reraise_processing_err].
  apply bind_ok in H as ([] & w1 & H1 & H).
  apply bind_ok in H as ([] & w2 & H2 & H).
  apply bind_ok in H as ([[page sp] tp] & w3 & H3 & H).
  exists page, w3. split; [|exact H].
  pose proof (Keeps_validate_file cfg fp w) as K1. rewrite H1 in K1.
  pose proof (Keeps_ensure_directories cfg ws w1) as K2. rewrite H2 in K2.
  pose proof (Keeps_process_image_sync cfg fp ws f w2) as K3. rewrite H3 in K3.
  simpl in K1, K2, K3. eauto using keeps_trans.
Qed.

Lemma create_document_pages page fp did w d w' :
  create_document page fp did w = (Ok d, w') ->
  num_pages d = 1 /\ length (pages d) = 1%nat /\ status d = COMPLETED /\
  doc_id d = document_id_of did w.
Proof.
  intro H. apply create_document_ok in H as (_ & meta & doc & Hd & ->).
  apply Document_new_ok in Hd as (-> & _ & _). repeat split.
Qed.

(** C8: a constructed [Document] has [num_pages = len(pages)], and the
    documents [process] and [process_sync] return have exactly one page. *)
Theorem document_num_pages_invariant :
  (forall id t fp n ps st md d,
     Document_new id t fp n ps st md = Ok d -> num_pages d = Z.of_nat (length (pages d))) /\
  (forall cfg fp ws f did w d w',
     process cfg fp ws f did w = (Ok d, w') ->
     num_pages d = Z.of_nat (length (pages d)) /\ num_pages d = 1) /\
  (forall cfg fp ws f did w d w',
     process_sync cfg fp ws f did w = (Ok d, w') ->
     num_pages d = Z.of_nat (length (pages d)) /\ num_pages d = 1).
Proof.
  split; [|split].
  - intros id t fp n ps st md d H. apply Document_new_ok in H as (-> & Hn & _). exact Hn.
  - intros cfg fp ws f did w d w' H.
    apply process_ok in H as (page & w2 & _ & H).
    apply create_document_pages in H as (H1 & H2 & _). rewrite H1, H2. split; reflexivity.
  - intros cfg fp ws f did w d w' H.
    apply process_sync_ok in H as (page & w2 & _ & H).
    apply create_document_pages in H as (H1 & H2 & _). rewrite H1, H2. split; reflexivity.
Qed.

Lemma document_num_pages_invariant_witness :
  match process default_config (lit "photo.png") None None None photo_world with
  | (Ok d, _) => num_pages d = Z.of_nat (length (pages d)) /\ num_pages d = 1
  | (Err _, _) => False
  end.
Proof.
  destruct (process default_config (lit "photo.png") None None None photo_world)
    as [[d|e] w'] eqn:E.
  - exact (proj1 (proj2 document_num_pages_invariant) _ _ _ _ _ _ d w' E).
  - vm_compute in E. discriminate.
Defined.

Lemma document_id_of_time did w1 w2 :
  w_time w1 = w_time w2 -> document_id_of did w1 = document_id_of did w2.
Proof. intro H. unfold document_id_of. rewrite H. reflexivity. Qed.

(** C9 (counterexample): without a caller id the document id is
    ["doc_img_" + str(int(time.time()))], not a random hex token after
    "doc_". *)
Lemma generated_document_id_not_hex :
  ~ (forall page fp w d w',
       create_document page fp None w = (Ok d, w') -> is_doc_hex_token (doc_id d) = true).
Proof.
  intro H.
  destruct (create_document sample_page (lit "photo.png") None photo_world) as [[d|e] w'] eqn:E.
  - specialize (H _ _ _ _ _ E). vm_compute in E. injection E as <- _.
    vm_compute in H. discriminate.
  - vm_compute in E. discriminate.
Qed.

(** C9 (amended): the id of the document is the caller's [document_id] when
    it is a non-empty string, and otherwise (absent or empty)
    ["doc_img_" + str(int(time.time()))], the clock read when the run starts. *)
Theorem document_id_assignment :
  (forall page fp did w d w',
     create_document page fp did w = (Ok d, w') -> doc_id d = document_id_of did w) /\
  (forall cfg fp ws f did w d w',
     process cfg fp ws f did w = (Ok d, w') -> doc_id d = document_id_of did w) /\
  (forall cfg fp ws f did w d w',
     process_sync cfg fp ws f did w = (Ok d, w') -> doc_id d = document_id_of did w).
Proof.
  split; [|split].
  - intros page fp did w d w' H. apply create_document_pages in H as (_ & _ & _ & H). exact H.
  - intros cfg fp ws f did w d w' H.
    apply process_ok in H as (page & w2 & (_ & _ & _ & Ht & _) & H).
    apply create_document_pages in H as (_ & _ & _ & H). rewrite H.
    apply document_id_of_time. exact Ht.
  - intros cfg fp ws f did w d w' H.
    apply process_sync_ok in H as (page & w2 & (_ & _ & _ & Ht & _) & H).
    apply create_document_pages in H as (_ & _ & _ & H). rewrite H.
    apply document_id_of_time. exact Ht.
Qed.

Lemma document_id_assignment_witness :
  match process default_config (lit "photo.png") None None (Some (lit "report-7")) photo_world with
  | (Ok d, _) => doc_id d = document_id_of (Some (lit "report-7")) photo_world
  | (Err _, _) => False
  end.
Proof.
  destruct (process default_config (lit "photo.png") None None (Some (lit "report-7")) photo_world)
    as [[d|e] w'] eqn:E.
  - exact (proj1 (proj2 document_id_assignment) _ _ _ _ _ _ d w' E).
  - vm_compute in E. discriminate.
Defined.

(** ** Where the thumbnail is written *)

Lemma path_name_no_slash p : existsb (Z.eqb 47) (path_name p) = false.
Proof.
  unfold path_name. induction p as [|c p IH]; [reflexivity|].
  cbn [split_last_slash]. destruct (split_last_slash p) as [d n]. cbn [snd] in IH.
  destruct (existsb (Z.eqb 47) p) eqn:E; [exact IH|].
  destruct (c =? 47) eqn:Ec; cbn [snd]; [exact E|].
  change (existsb (Z.eqb 47) (c :: p)) with ((47 =? c) || existsb (Z.eqb 47) p).
  rewrite Z.eqb_sym, Ec. exact E.
Qed.

Lemma split_last_slash_app a f :
  existsb (Z.eqb 47) f = false -> split_last_slash (a ++ 47 :: f) = (a, f).
Proof.
  intro Hf. induction a as [|c a IH]; simpl.
  - rewrite Hf. destruct (split_last_slash f). reflexivity.
  - rewrite IH. rewrite existsb_app. simpl. rewrite orb_true_r. reflexivity.
Qed.

Lemma existsb_firstn_false {A} (f : A -> bool) k l :
  existsb f l = false -> existsb f (firstn k l) = false.
Proof.
  intro H. rewrite <- (firstn_skipn k l), existsb_app in H.
  apply orb_false_iff in H as [H _]. exact H.
Qed.

Lemma thumbnail_filename_no_slash n :
  existsb (Z.eqb 47) (generate_thumbnail_filename n) = false.
Proof.
  unfold generate_thumbnail_filename, path_stem.
  rewrite !existsb_app, existsb_firstn_false by apply path_name_no_slash.
  reflexivity.
Qed.

Lemma absolute_app w a r : a <> [] -> absolute w (a ++ r) = absolute w a ++ r.
Proof.
  intro Ha. destruct a as [|c a]; [congruence|]. unfold absolute. simpl.
  repeat match goal with
         | |- context [match ?x with _ => _ end] => destruct x
         end; rewrite <- ?app_assoc; reflexivity.
Qed.

Lemma get_thumbnail_path_nonempty cfg ws : get_thumbnail_path cfg ws <> [].
Proof.
  unfold get_thumbnail_path, path_join. destruct (get_image_store_path cfg ws); discriminate.
Qed.

Lemma thumbnail_parent w cfg ws n :
  path_parent (absolute w (path_join (get_thumbnail_path cfg ws) (generate_thumbnail_filename n)))
  = absolute w (get_thumbnail_path cfg ws).
Proof.
  unfold path_join at 1. rewrite absolute_app by apply get_thumbnail_path_nonempty.
  unfold path_parent. change slash with [47]. simpl.
  rewrite split_last_slash_app by apply thumbnail_filename_no_slash. reflexivity.
Qed.

Lemma in_unwritable w d :
  In d (w_unwritable w) -> existsb (pystr_eqb d) (w_unwritable w) = true.
Proof. intro H. apply existsb_exists. exists d. split; [exact H | apply pystr_eqb_refl]. Qed.

(** With thumbnails enabled, an existing but unwritable thumbnail directory
    makes the save raise; [create_thumbnail] answers [None] and the world is
    as before. *)
Lemma create_thumbnail_locked cfg im name ws w :
  enable_thumbnails cfg = true ->
  lookup w (get_thumbnail_path cfg ws) <> None ->
  In (absolute w (get_thumbnail_path cfg ws)) (w_unwritable w) ->
  create_thumbnail cfg im name ws w = (Ok None, w).
Proof.
  intros He Hl Hu. apply in_unwritable in Hu.
  unfold create_thumbnail, create_thumbnail_try. rewrite He. cbn [negb]. cbv zeta.
  unfold try_except, bind, lift, ret, mkdir_p.
  destruct (w_mkdir_fails w); [reflexivity|].
  destruct (lookup w (get_thumbnail_path cfg ws)) as [e|]; [|congruence].
  destruct (fe_is_file e); [reflexivity|].
  destruct (thumbnail im (thumbnail_size cfg)) as [th|err]; [|reflexivity].
  unfold pil_save.
  change (existsb (pystr_eqb (lit "JPEG")) pillow_writers) with true.
  unfold get, write_file, bind. cbv beta iota zeta. rewrite thumbnail_parent, Hu. reflexivity.
Qed.

(** ** The pipeline with a failing thumbnail step *)

Lemma with_thumbnails_same cfg b :
  optimize_image (with_thumbnails cfg b) = optimize_image cfg /\
  save_image (with_thumbnails cfg b) = save_image cfg /\
  create_image_metadata (with_thumbnails cfg b) = create_image_metadata cfg /\
  validate_file (with_thumbnails cfg b) = validate_file cfg /\
  ensure_directories (with_thumbnails cfg b) = ensure_directories cfg /\
  default_output_format (with_thumbnails cfg b) = default_output_format cfg /\
  enable_thumbnails (with_thumbnails cfg b) = b.
Proof. repeat split. Qed.

Lemma bind_ext_keeps {A B} (m : M A) (k1 k2 : A -> M B) w :
  Keeps m ->
  (forall a w', m w = (Ok a, w') -> keeps w w' -> k1 a w' = k2 a w') ->
  bind m k1 w = bind m k2 w.
Proof.
  intros Hm Hk. unfold bind. specialize (Hm w).
  destruct (m w) as [[a|e] w'] eqn:E; [apply Hk; auto | reflexivity].
Qed.

Lemma bind_first_eq {A B} (m1 m2 : M A) (k : A -> M B) w :
  m1 w = m2 w -> bind m1 k w = bind m2 k w.
Proof. intro H. unfold bind. rewrite H. reflexivity. Qed.

Lemma try_except_ext {A} (m1 m2 : M A) h w :
  m1 w = m2 w -> try_except m1 h w = try_except m2 h w.
Proof. intro H. unfold try_except. rewrite H. reflexivity. Qed.

Lemma absolute_cwd w1 w2 p : w_cwd w1 = w_cwd w2 -> absolute w1 p = absolute w2 p.
Proof. intro H. unfold absolute. rewrite H. reflexivity. Qed.

Lemma mkdir_p_ok p w w' : mkdir_p p w = (Ok tt, w') -> lookup w' p <> None.
Proof.
  unfold mkdir_p. destruct (w_mkdir_fails w); [discriminate|].
  destruct (lookup w p) as [e|] eqn:E.
  - destruct (fe_is_file e); [discriminate|]. intro H. injection H as <-.
    rewrite E. discriminate.
  - intro H. injection H as <-. rewrite lookup_set_files. cbn [assoc].
    rewrite pystr_eqb_refl. discriminate.
Qed.

Lemma ensure_directories_ok cfg ws w w' :
  ensure_directories cfg ws w = (Ok tt, w') -> lookup w' (get_thumbnail_path cfg ws) <> None.
Proof.
  unfold ensure_directories, bind.
  destruct (mkdir_p (get_image_store_path cfg ws) w) as [[[]|e] w1]; [|discriminate].
  apply mkdir_p_ok.
Qed.

Lemma keeps_locked cfg ws w w' :
  keeps w w' -> lookup w (get_thumbnail_path cfg ws) <> None ->
  In (absolute w (get_thumbnail_path cfg ws)) (w_unwritable w) ->
  lookup w' (get_thumbnail_path cfg ws) <> None /\
  In (absolute w' (get_thumbnail_path cfg ws)) (w_unwritable w').
Proof.
  intros (Hc & Hu & _ & _ & Hl) Hl0 Hin. split; [apply Hl, Hl0|].
  rewrite Hu, (absolute_cwd w' w _ Hc). exact Hin.
Qed.

Lemma process_image_sync_locked cfg fp ws f w :
  enable_thumbnails cfg = true ->
  lookup w (get_thumbnail_path cfg ws) <> None ->
  In (absolute w (get_thumbnail_path cfg ws)) (w_unwritable w) ->
  process_image_sync cfg fp ws f w = process_image_sync (with_thumbnails cfg false) fp ws f w.
Proof.
  intros He Hl Hu.
  destruct (with_thumbnails_same cfg false) as (E1 & E2 & E3 & _ & _ & E6 & E7).
  unfold process_image_sync. rewrite E1, E2, E3, E6, E7, He.
  apply try_except_ext.
  apply bind_ext_keeps; [auto with keeps | intros img w1 _ K1].
  apply bind_ext_keeps; [auto with keeps | intros [] w2 _ K2].
  apply bind_ext_keeps; [auto with keeps | intros oi w3 _ K3].
  cbv zeta.
  apply bind_ext_keeps; [auto with keeps | intros [sp fs] w4 _ K4].
  apply bind_first_eq. cbv iota.
  assert (K : keeps w w4) by eauto using keeps_trans.
  destruct (keeps_locked cfg ws w w4 K Hl Hu) as [Hl4 Hu4].
  apply create_thumbnail_locked; assumption.
Qed.

Lemma process_locked cfg fp ws f did w :
  enable_thumbnails cfg = true ->
  In (absolute w (get_thumbnail_path cfg ws)) (w_unwritable w) ->
  process cfg fp ws f did w = process (with_thumbnails cfg false) fp ws f did w.
Proof.
  intros He Hu.
  destruct (with_thumbnails_same cfg false) as (_ & _ & _ & E4 & E5 & _ & _).
  unfold process, process_image_async. rewrite E4, E5.
  apply try_except_ext.
  apply bind_ext_keeps; [auto with keeps | intros [] w1 _ K1].
  apply bind_ext_keeps; [auto with keeps | intros [] w2 H2 K2].
  apply bind_first_eq.
  assert (Hu2 : In (absolute w2 (get_thumbnail_path cfg ws)) (w_unwritable w2)).
  { destruct (keeps_trans _ _ _ K1 K2) as (Hc & Hu' & _).
    rewrite Hu', (absolute_cwd w2 w _ Hc). exact Hu. }
  apply process_image_sync_locked; [exact He | eapply ensure_directories_ok; exact H2 | exact Hu2].
Qed.

Lemma process_image_sync_no_thumbnails cfg fp ws f w page sp tp w' :
  enable_thumbnails cfg = false ->
  process_image_sync cfg fp ws f w = (Ok (page, sp, tp), w') -> thumbnail_path page = None.
Proof.
  intros He H. unfold process_image_sync in H.
  apply try_except_ok_raise in H; [|intros; eexists; reflexivity].
  apply bind_ok in H as (img & w1 & _ & H).
  apply bind_ok in H as ([] & w2 & _ & H).
  apply bind_ok in H as (oi & w3 & _ & H). cbv zeta in H.
  apply bind_ok in H as ([sp' fs] & w4 & _ & H).
  rewrite He in H.
  apply bind_ok in H as (tp' & w5 & H5 & H). injection H5 as <- <-.
  apply bind_ok in H as (w6 & w7 & _ & H).
  apply bind_ok in H as (md & w8 & _ & H).
  apply bind_ok in H as (pg & w9 & H9 & H).
  unfold lift, Page_new in H9.
  destruct ((1 <=? 0) || is_blank sp'); [discriminate|].
  injection H9 as <- <-. unfold ret in H. injection H as <- _ _ _. reflexivity.
Qed.

Lemma process_ok_page cfg fp ws f did w d w' :
  process cfg fp ws f did w = (Ok d, w') ->
  exists page sp tp w2 w3,
    process_image_sync cfg fp ws f w2 = (Ok (page, sp, tp), w3) /\
    create_document page fp did w3 = (Ok d, w').
Proof.
  intro H. unfold process, process_image_async in H.
  apply try_except_ok_raise in H; [|intros; apply reraise_processing_err].
  apply bind_ok in H as ([] & w1 & _ & H).
  apply bind_ok in H as ([] & w2 & _ & H).
  apply bind_ok in H as ([[page sp] tp] & w3 & H3 & H).
  exists page, sp, tp, w2, w3. split; assumption.
Qed.

Lemma create_document_page_refs page fp did w d w' :
  create_document page fp did w = (Ok d, w') ->
  status d = COMPLETED /\ Forall (fun p => thumbnail_path p = thumbnail_path page) (pages d).
Proof.
  intro H. apply create_document_ok in H as (_ & meta & doc & Hd & ->).
  apply Document_new_ok in Hd as (-> & _ & _). simpl.
  split; [reflexivity|]. constructor; [reflexivity | constructor].
Qed.

Lemma create_thumbnail_never_raises cfg im name ws w :
  exists r, fst (create_thumbnail cfg im name ws w) = Ok r.
Proof.
  unfold create_thumbnail, create_thumbnail_try. destruct (negb (enable_thumbnails cfg)); [eexists; reflexivity|].
  unfold try_except.
  match goal with
  | |- exists r, fst (match ?x with _ => _ end) = _ => destruct x as [[r|e] w']
  end; eexists; reflexivity.
Qed.

(** Once the thumbnail directory exists, a [try] block that raises has
    left the world as it was. *)
Lemma create_thumbnail_try_err_world cfg im name ws w e w' :
  lookup w (get_thumbnail_path cfg ws) <> None ->
  create_thumbnail_try cfg im name ws w = (Err e, w') -> w' = w.
Proof.
  intros Hl. unfold create_thumbnail_try. cbv zeta.
  unfold bind, lift, ret, mkdir_p.
  destruct (w_mkdir_fails w); [congruence|].
  destruct (lookup w (get_thumbnail_path cfg ws)) as [d|]; [|congruence].
  destruct (fe_is_file d); [congruence|].
  destruct (thumbnail im (thumbnail_size cfg)) as [th|err]; [|congruence].
  unfold pil_save.
  change (existsb (pystr_eqb (lit "JPEG")) pillow_writers) with true.
  unfold get, write_file, bind. cbv beta iota zeta.
  match goal with |- context [if ?b then _ else _] => destruct b end; congruence.
Qed.

Lemma create_thumbnail_try_err cfg im name ws w e w' :
  enable_thumbnails cfg = true ->
  create_thumbnail_try cfg im name ws w = (Err e, w') ->
  create_thumbnail cfg im name ws w = (Ok None, w').
Proof.
  intros He Ht. unfold create_thumbnail. rewrite He. cbn [negb].
  unfold try_except. rewrite Ht. reflexivity.
Qed.

Lemma process_image_sync_thumb_fail cfg fp ws f w2 img w3 w4 oi sp fs w5 e w6 :
  enable_thumbnails cfg = true ->
  lookup w2 (get_thumbnail_path cfg ws) <> None ->
  load_image fp w2 = (Ok img, w3) ->
  log EvNormalize w3 = (Ok tt, w4) ->
  optimize_image cfg img = Ok oi ->
  save_image cfg oi fp ws
    (match f with
     | Some s => if py_truthy s then s else default_output_format cfg
     | None => default_output_format cfg
     end) w4 = (Ok (sp, fs), w5) ->
  create_thumbnail_try cfg oi (path_name sp) ws w5 = (Err e, w6) ->
  process_image_sync cfg fp ws f w2 = process_image_sync (with_thumbnails cfg false) fp ws f w2.
Proof.
  intros He Hl Hload Hlog Hopt Hsave Ht.
  assert (K : keeps w2 w5).
  { pose proof (Keeps_load_image fp w2) as K3. rewrite Hload in K3.
    pose proof (Keeps_log EvNormalize w3) as K4. rewrite Hlog in K4.
    pose proof (Keeps_save_image cfg oi fp ws
      (match f with
       | Some s => if py_truthy s then s else default_output_format cfg
       | None => default_output_format cfg
       end) w4) as K5. rewrite Hsave in K5.
    simpl in K3, K4, K5. eauto using keeps_trans. }
  assert (Hl5 : lookup w5 (get_thumbnail_path cfg ws) <> None)
    by (destruct K as (_ & _ & _ & _ & Hk); apply Hk, Hl).
  pose proof (create_thumbnail_try_err_world _ _ _ _ _ _ _ Hl5 Ht) as ->.
  destruct (with_thumbnails_same cfg false) as (E1 & E2 & E3 & _ & _ & E6 & E7).
  unfold process_image_sync. rewrite E1, E2, E3, E6, E7, He.
  apply try_except_ext.
  apply bind_ext_keeps; [auto with keeps | intros img' w3' H _].
  rewrite Hload in H. injection H as <- <-.
  apply bind_ext_keeps; [auto with keeps | intros [] w4' H _].
  rewrite Hlog in H. injection H as <-.
  apply bind_ext_keeps; [auto with keeps | intros oi' w' H _].
  unfold lift in H. rewrite Hopt in H. injection H as <- <-.
  cbv zeta.
  apply bind_ext_keeps; [auto with keeps | intros [sp' fs'] w5' H _].
  rewrite Hsave in H. injection H as <- <- <-.
  apply bind_first_eq. cbv iota.
  exact (create_thumbnail_try_err _ _ _ _ _ _ _ He Ht).
Qed.

Lemma process_thumb_fail cfg fp ws f did w w1 w2 img w3 w4 oi sp fs w5 e w6 :
  enable_thumbnails cfg = true ->
  validate_file cfg fp w = (Ok tt, w1) ->
  ensure_directories cfg ws w1 = (Ok tt, w2) ->
  load_image fp w2 = (Ok img, w3) ->
  log EvNormalize w3 = (Ok tt, w4) ->
  optimize_image cfg img = Ok oi ->
  save_image cfg oi fp ws
    (match f with
     | Some s => if py_truthy s then s else default_output_format cfg
     | None => default_output_format cfg
     end) w4 = (Ok (sp, fs), w5) ->
  create_thumbnail_try cfg oi (path_name sp) ws w5 = (Err e, w6) ->
  process cfg fp ws f did w = process (with_thumbnails cfg false) fp ws f did w /\
  process_sync cfg fp ws f did w = process_sync (with_thumbnails cfg false) fp ws f did w.
Proof.
  intros He Hv Hd Hload Hlog Hopt Hsave Ht.
  pose proof (process_image_sync_thumb_fail cfg fp ws f w2 img w3 w4 oi sp fs w5 e w6 He
                (ensure_directories_ok _ _ _ _ Hd) Hload Hlog Hopt Hsave Ht) as Hp.
  destruct (with_thumbnails_same cfg false) as (_ & _ & _ & E4 & E5 & _ & _).
  split; [unfold process, process_image_async | unfold process_sync]; rewrite E4, E5;
    apply try_except_ext;
    (apply bind_ext_keeps; [auto with keeps | intros [] w1' H _]);
    rewrite Hv in H; injection H as <-;
    (apply bind_ext_keeps; [auto with keeps | intros [] w2' H _]);
    rewrite Hd in H; injection H as <-;
    apply bind_first_eq; exact Hp.
Qed.

Lemma process_sync_ok_page cfg fp ws f did w d w' :
  process_sync cfg fp ws f did w = (Ok d, w') ->
  exists page sp tp w2 w3,
    process_image_sync cfg fp ws f w2 = (Ok (page, sp, tp), w3) /\
    create_document page fp did w3 = (Ok d, w').
Proof.
  intro H. unfold process_sync in H.
  apply try_except_ok_raise in H; [|intros; apply reraise_processing_err].
  apply bind_ok in H as ([] & w1 & _ & H).
  apply bind_ok in H as ([] & w2 & _ & H).
  apply bind_ok in H as ([[page sp] tp] & w3 & H3 & H).
  exists page, sp, tp, w2, w3. split; assumption.
Qed.

Lemma thumbnails_off_documents cfg fp ws f did w d w' :
  process (with_thumbnails cfg false) fp ws f did w = (Ok d, w') \/
  process_sync (with_thumbnails cfg false) fp ws f did w = (Ok d, w') ->
  status d = COMPLETED /\ Forall (fun p => thumbnail_path p = None) (pages d).
Proof.
  intros [H | H];
    [apply process_ok_page in H as (page & sp & tp & w2 & w3 & Hp & Hd)
    |apply process_sync_ok_page in H as (page & sp & tp & w2 & w3 & Hp & Hd)];
    apply process_image_sync_no_thumbnails in Hp; try reflexivity;
    apply create_document_page_refs in Hd as [Hs Hf]; (split; [exact Hs|]);
    rewrite <- Hp; exact Hf.
Qed.

(** C6: [create_thumbnail] never raises, and whenever thumbnails are enabled
    and the body of its [try] block raises (whatever the exception: the
    directory cannot be made, [Image.thumbnail] fails, the save fails), it
    returns [None] with the world the block left. In the pipeline: when
    validation, directory creation, loading, optimisation and the save of the
    main image succeed and the thumbnail block then raises, [process] and
    [process_sync] behave exactly as with thumbnails disabled, and every
    document they return is [COMPLETED] with [thumbnail_path = None] on its
    pages. *)
Theorem thumbnail_failure_non_fatal :
  (forall cfg im name ws w, exists r, fst (create_thumbnail cfg im name ws w) = Ok r) /\
  (forall cfg im name ws w e w',
     enable_thumbnails cfg = true ->
     create_thumbnail_try cfg im name ws w = (Err e, w') ->
     create_thumbnail cfg im name ws w = (Ok None, w')) /\
  (forall cfg fp ws f did w w1 w2 img w3 w4 oi sp fs w5 e w6,
     enable_thumbnails cfg = true ->
     validate_file cfg fp w = (Ok tt, w1) ->
     ensure_directories cfg ws w1 = (Ok tt, w2) ->
     load_image fp w2 = (Ok img, w3) ->
     log EvNormalize w3 = (Ok tt, w4) ->
     optimize_image cfg img = Ok oi ->
     save_image cfg oi fp ws
       (match f with
        | Some s => if py_truthy s then s else default_output_format cfg
        | None => default_output_format cfg
        end) w4 = (Ok (sp, fs), w5) ->
     create_thumbnail_try cfg oi (path_name sp) ws w5 = (Err e, w6) ->
     process cfg fp ws f did w = process (with_thumbnails cfg false) fp ws f did w /\
     process_sync cfg fp ws f did w = process_sync (with_thumbnails cfg false) fp ws f did w /\
     (forall d w', process cfg fp ws f did w = (Ok d, w') \/
                   process_sync cfg fp ws f did w = (Ok d, w') ->
        status d = COMPLETED /\ Forall (fun p => thumbnail_path p = None) (pages d))).
Proof.
  split; [exact create_thumbnail_never_raises|].
  split; [exact create_thumbnail_try_err|].
  intros cfg fp ws f did w w1 w2 img w3 w4 oi sp fs w5 e w6 He Hv Hd Hload Hlog Hopt Hsave Ht.
  destruct (process_thumb_fail cfg fp ws f did w w1 w2 img w3 w4 oi sp fs w5 e w6
              He Hv Hd Hload Hlog Hopt Hsave Ht) as [Eq1 Eq2].
  split; [exact Eq1|]. split; [exact Eq2|].
  intros d w' H. rewrite Eq1, Eq2 in H. exact (thumbnails_off_documents _ _ _ _ _ _ _ _ H).
Qed.

Lemma thumbnail_failure_non_fatal_witness :
  process zero_thumbnail_config (lit "photo.png") None None None photo_world =
    process (with_thumbnails zero_thumbnail_config false) (lit "photo.png") None None None
      photo_world /\
  process_sync zero_thumbnail_config (lit "photo.png") None None None photo_world =
    process_sync (with_thumbnails zero_thumbnail_config false) (lit "photo.png") None None None
      photo_world /\
  (forall d w',
     process zero_thumbnail_config (lit "photo.png") None None None photo_world = (Ok d, w') \/
     process_sync zero_thumbnail_config (lit "photo.png") None None None photo_world = (Ok d, w') ->
     status d = COMPLETED /\ Forall (fun p => thumbnail_path p = None) (pages d)).
Proof.
  destruct (validate_file zero_thumbnail_config (lit "photo.png") photo_world) as [r1 w1] eqn:H1.
  pose proof H1 as H. vm_compute in H. injection H as Ha Hb. subst r1 w1.
  match type of H1 with _ = (_, ?w) =>
    destruct (ensure_directories zero_thumbnail_config None w) as [r2 w2] eqn:H2 end.
  pose proof H2 as H. vm_compute in H. injection H as Ha Hb. subst r2 w2.
  match type of H2 with _ = (_, ?w) =>
    destruct (load_image (lit "photo.png") w) as [r3 w3] eqn:H3 end.
  pose proof H3 as H. vm_compute in H. injection H as Ha Hb. subst r3 w3.
  match type of H3 with _ = (_, ?w) => destruct (log EvNormalize w) as [r4 w4] eqn:H4 end.
  pose proof H4 as H. vm_compute in H. injection H as Ha Hb. subst r4 w4.
  match type of H3 with _ = (Ok ?img, _) =>
    destruct (optimize_image zero_thumbnail_config img) as [oi|err] eqn:H5;
    [|vm_compute in H5; discriminate] end.
  pose proof H5 as H. vm_compute in H. injection H as Ha. subst oi.
  match goal with H4 : _ = (_, ?w) |- _ => match type of H5 with _ = Ok ?oi =>
    destruct (save_image zero_thumbnail_config oi (lit "photo.png") None
                (default_output_format zero_thumbnail_config) w) as [r6 w6] eqn:H6 end end.
  pose proof H6 as H. vm_compute in H. injection H as Ha Hb. subst r6 w6.
  match type of H6 with save_image _ ?oi _ _ _ _ = (Ok (?sp, _), ?w) =>
    destruct (create_thumbnail_try zero_thumbnail_config oi (path_name sp) None w)
      as [r7 w7] eqn:H7 end.
  pose proof H7 as H. vm_compute in H. injection H as Ha Hb. subst r7 w7.
  eapply (proj2 (proj2 thumbnail_failure_non_fatal));
    [reflexivity | exact H1 | exact H2 | exact H3 | exact H4 | exact H5 | exact H6 | exact H7].
Defined.

(** ** Output formats *)

Lemma in_formats_false f :
  f <> Some (lit "webp") -> f <> Some (lit "jpeg") -> in_formats f = false.
Proof.
  intros H1 H2. destruct f as [s|]; [|reflexivity]. simpl.
  destruct (pystr_eqb s (lit "webp")) eqn:E1.
  { apply pystr_eqb_eq in E1. subst. contradiction. }
  destruct (pystr_eqb s (lit "jpeg")) eqn:E2.
  { apply pystr_eqb_eq in E2. subst. contradiction. }
  reflexivity.
Qed.

(** C5 (counterexample): [ImageProcessor.process] does not check the output
    format: asked for "png", it decodes, normalises and saves a ".png"
    artifact. *)
Lemma process_accepts_png :
  match process default_config (lit "photo.png") None (Some (lit "png")) None photo_world with
  | (Ok _, w') =>
      In (EvDecode (lit "photo.png")) (w_log w') /\ In EvNormalize (w_log w') /\
      exists p, In (EvSave p) (w_log w') /\ path_suffix p = lit ".png"
  | (Err _, _) => False
  end.
Proof.
  vm_compute. split; [left; reflexivity|]. split; [right; left; reflexivity|].
  eexists. split; [right; right; left; reflexivity | vm_compute; reflexivity].
Qed.

(** C5 (amended): the two front ends refuse any output format other than
    exactly "webp" or "jpeg" ("jpg" included) before anything runs: the REST
    endpoint answers with an HTTP error and the CLI exits with code 1, and the
    world (files and the log of decode, normalise and save steps) is left as
    it was.  The [ImageProcessor] entry points do not check the format. *)
Theorem front_ends_reject_format :
  (forall cfg up ws f did w,
     f <> Some (lit "webp") -> f <> Some (lit "jpeg") ->
     exists c, api_process_image cfg up ws f did w = (Err (HTTPException c), w)) /\
  (forall cfg p ws f did w,
     f <> lit "webp" -> f <> lit "jpeg" ->
     cli_process cfg p ws f did w = (Err (TyperExit 1), w)).
Proof.
  split.
  - intros cfg up ws f did w H1 H2.
    pose proof (in_formats_false f H1 H2) as Hin.
    unfold api_process_image, try_except.
    destruct (up_filename up) as [fn|]; [|eexists; reflexivity].
    destruct (negb (py_truthy fn)); [eexists; reflexivity|].
    unfold bind, ret, raise. rewrite Hin.
    destruct (up_size up) as [n|]; [destruct (n =? 0)|]; eexists; reflexivity.
  - intros cfg p ws f did w H1 H2.
    assert (Hin : in_formats (Some f) = false)
      by (apply in_formats_false; congruence).
    unfold cli_process, try_except, bind, get.
    destruct (lookup w p); [rewrite Hin|]; reflexivity.
Qed.

Lemma front_ends_reject_format_witness :
  (exists c, api_process_image default_config scan_upload None (Some (lit "jpg")) None photo_world
             = (Err (HTTPException c), photo_world)) /\
  cli_process default_config (lit "photo.png") None (lit "png") None photo_world
    = (Err (TyperExit 1), photo_world).
Proof.
  split.
  - apply (proj1 front_ends_reject_format); vm_compute; discriminate.
  - apply (proj2 front_ends_reject_format); vm_compute; discriminate.
Defined.

(* ========================================================================= *)
(** * Further properties of the service *)

(** ** Errors of the processing entry points *)

Lemma process_err_ipe cfg p ws f did w e :
  fst (process cfg p ws f did w) = Err e -> exists msg, e = ImageProcessingError msg.
Proof.
  unfold process, try_except.
  match goal with
  | |- fst (match ?x with _ => _ end) = _ -> _ => destruct x as [[a|e0] w']
  end; cbn [fst]; [discriminate|].
  unfold reraise_processing, raise. destruct e0; cbn [fst]; intro H; injection H as <-; eauto.
Qed.

Lemma process_sync_err_ipe cfg p ws f did w e :
  fst (process_sync cfg p ws f did w) = Err e -> exists msg, e = ImageProcessingError msg.
Proof.
  unfold process_sync, try_except.
  match goal with
  | |- fst (match ?x with _ => _ end) = _ -> _ => destruct x as [[a|e0] w']
  end; cbn [fst]; [discriminate|].
  unfold reraise_processing, raise. destruct e0; cbn [fst]; intro H; injection H as <-; eauto.
Qed.

(** X1: [process] and [process_sync] raise nothing but [ImageProcessingError]:
    every other exception of the pipeline is wrapped. *)
Theorem process_errors_wrapped cfg p ws f did w e :
  (fst (process cfg p ws f did w) = Err e -> exists msg, e = ImageProcessingError msg) /\
  (fst (process_sync cfg p ws f did w) = Err e -> exists msg, e = ImageProcessingError msg).
Proof. split; [apply process_err_ipe | apply process_sync_err_ipe]. Qed.

(** ** The two directories *)

Lemma mkdir_p_lookup_some q w p e :
  lookup w p = Some e -> lookup (snd (mkdir_p q w)) p = Some e.
Proof.
  intro H. unfold mkdir_p.
  destruct (w_mkdir_fails w); [exact H|].
  destruct (lookup w q) as [e'|] eqn:Eq; [destruct (fe_is_file e'); exact H|].
  cbn [snd]. rewrite lookup_set_files. cbn [assoc].
  destruct (pystr_eqb (absolute w p) (absolute w q)) eqn:E; [|exact H].
  apply pystr_eqb_eq in E. unfold lookup in H, Eq. congruence.
Qed.

Lemma mkdir_p_dir q w w' :
  mkdir_p q w = (Ok tt, w') ->
  w_mkdir_fails w = false /\ exists e, lookup w' q = Some e /\ fe_is_file e = false.
Proof.
  unfold mkdir_p. destruct (w_mkdir_fails w); [discriminate|].
  destruct (lookup w q) as [e|] eqn:E.
  - destruct (fe_is_file e) eqn:Ef; [discriminate|]. intro H. injection H as <-. eauto.
  - intro H. injection H as <-. split; [reflexivity|].
    rewrite lookup_set_files. cbn [assoc]. rewrite pystr_eqb_refl. eexists; split; reflexivity.
Qed.

Lemma mkdir_p_existing_dir q w e :
  w_mkdir_fails w = false -> lookup w q = Some e -> fe_is_file e = false ->
  mkdir_p q w = (Ok tt, w).
Proof. intros Hf Hl He. unfold mkdir_p. rewrite Hf, Hl, He. reflexivity. Qed.

(** X2: when [ensure_directories] succeeds, the image store and the thumbnail
    directory both exist as directories, and running it again succeeds and
    changes nothing. *)
Theorem ensure_directories_idempotent cfg ws w w' :
  ensure_directories cfg ws w = (Ok tt, w') ->
  lookup w' (get_image_store_path cfg ws) <> None /\
  lookup w' (get_thumbnail_path cfg ws) <> None /\
  ensure_directories cfg ws w' = (Ok tt, w').
Proof.
  unfold ensure_directories, bind.
  destruct (mkdir_p (get_image_store_path cfg ws) w) as [[[]|e] w1] eqn:E1; [|discriminate].
  intro E2. pose proof E2 as E2'.
  apply mkdir_p_dir in E1 as (Hf1 & e1 & Hl1 & He1).
  pose proof (Keeps_mkdir_p (get_thumbnail_path cfg ws) w1) as K. rewrite E2 in K.
  destruct K as (_ & _ & Hm & _). cbn [snd] in Hm.
  apply mkdir_p_dir in E2' as (Hf2 & e2 & Hl2 & He2).
  assert (Hl1' : lookup (snd (mkdir_p (get_thumbnail_path cfg ws) w1)) (get_image_store_path cfg ws)
                 = Some e1) by (apply mkdir_p_lookup_some; exact Hl1).
  rewrite E2 in Hl1'. cbn [snd] in Hl1'.
  split; [congruence|]. split; [congruence|].
  rewrite (mkdir_p_existing_dir _ w' e1) by congruence.
  apply mkdir_p_existing_dir with e2; congruence.
Qed.

(** ** Names of saved images and thumbnails *)

Lemma split_last_slash_none p : existsb (Z.eqb 47) p = false -> split_last_slash p = ([], p).
Proof.
  induction p as [|c p IH]; intro H; [reflexivity|].
  change (existsb (Z.eqb 47) (c :: p)) with ((47 =? c) || existsb (Z.eqb 47) p) in H.
  apply orb_false_iff in H as [Hc Hp].
  cbn [split_last_slash]. rewrite IH by exact Hp. rewrite Hp, Z.eqb_sym, Hc. reflexivity.
Qed.

Lemma last_dot_app i a b acc :
  last_dot i (a ++ b) acc = last_dot (i + length a) b (last_dot i a acc).
Proof.
  revert i acc. induction a as [|c a IH]; intros i acc.
  - cbn. rewrite Nat.add_0_r. reflexivity.
  - cbn [app last_dot length]. rewrite IH. f_equal. lia.
Qed.

Lemma last_dot_nodot i s acc : (forall c, In c s -> c <> 46) -> last_dot i s acc = acc.
Proof.
  revert i acc. induction s as [|c s IH]; intros i acc H; [reflexivity|].
  cbn [last_dot]. destruct (Z.eqb_spec c 46) as [E|E].
  - exfalso. apply (H c); [left; reflexivity | exact E].
  - apply IH. intros d Hd. apply H. right. exact Hd.
Qed.

Lemma no_slash_existsb s : (forall c, In c s -> c <> 47) -> existsb (Z.eqb 47) s = false.
Proof.
  intro H. destruct (existsb (Z.eqb 47) s) eqn:E; [|reflexivity].
  apply existsb_exists in E as (c & Hc & Ec). apply Z.eqb_eq in Ec.
  exfalso. apply (H c Hc). congruence.
Qed.

(** The stem of ["img_" ++ h ++ "." ++ e] when neither [h] nor [e] has a dot or
    a slash and [e] is not empty. *)
Lemma path_stem_img h e :
  (forall c, In c h -> c <> 46 /\ c <> 47) -> e <> [] ->
  (forall c, In c e -> c <> 46 /\ c <> 47) ->
  path_stem (lit "img_" ++ h ++ lit "." ++ e) = lit "img_" ++ h.
Proof.
  intros Hh He He'.
  set (a := lit "img_" ++ h).
  assert (Ha : forall c, In c a -> c <> 46 /\ c <> 47).
  { intros c Hc. apply in_app_or in Hc as [Hc|Hc]; [|apply Hh, Hc].
    simpl in Hc. intuition subst; discriminate. }
  replace (lit "img_" ++ h ++ lit "." ++ e) with (a ++ 46 :: e)
    by (unfold a; rewrite <- app_assoc; reflexivity).
  assert (Hn : path_name (a ++ 46 :: e) = a ++ 46 :: e).
  { unfold path_name. rewrite split_last_slash_none; [reflexivity|].
    apply no_slash_existsb. intros c Hc. apply in_app_or in Hc as [Hc|[<-|Hc]].
    - apply Ha, Hc.
    - discriminate.
    - apply He', Hc. }
  assert (Hs : path_suffix (a ++ 46 :: e) = 46 :: e).
  { unfold path_suffix. rewrite Hn, last_dot_app, (last_dot_nodot 0 a None)
      by (intros c Hc; apply Ha, Hc).
    cbn [last_dot]. rewrite Z.eqb_refl, Nat.add_0_l.
    rewrite last_dot_nodot by (intros c Hc; apply He', Hc).
    rewrite length_app. cbn [length].
    assert (La : (0 < length a)%nat) by (unfold a; rewrite length_app; simpl; lia).
    destruct e as [|x e]; [congruence|]. cbn [length].
    replace ((0 <? length a)%nat && (length a <? length a + Datatypes.S (Datatypes.S (length e)) - 1)%nat)
      with true by (symmetry; apply andb_true_iff; split; apply Nat.ltb_lt; lia).
    cbv iota. rewrite skipn_app, skipn_all, Nat.sub_diag. reflexivity. }
  unfold path_stem. rewrite Hn, Hs, length_app. cbn [length].
  rewrite Nat.add_sub, firstn_app, firstn_all, Nat.sub_diag. apply app_nil_r.
Qed.

Lemma hex_alphabet_no_dot_slash c : In c MD5.hex_alphabet -> c <> 46 /\ c <> 47.
Proof. intro H. simpl in H. intuition subst; discriminate. Qed.

Lemma py_lower_char_dot c : (py_lower_char c =? 46) = (c =? 46).
Proof.
  unfold py_lower_char. destruct ((65 <=? c) && (c <=? 90)) eqn:E; [|reflexivity].
  apply andb_true_iff in E as [E1 E2]. apply Z.leb_le in E1.
  destruct (Z.eqb_spec (c + 32) 46), (Z.eqb_spec c 46); lia.
Qed.

Lemma py_lower_char_slash c : (py_lower_char c =? 47) = (c =? 47).
Proof.
  unfold py_lower_char. destruct ((65 <=? c) && (c <=? 90)) eqn:E; [|reflexivity].
  apply andb_true_iff in E as [E1 E2]. apply Z.leb_le in E1.
  destruct (Z.eqb_spec (c + 32) 47), (Z.eqb_spec c 47); lia.
Qed.

Lemma py_lower_in_dot_slash f c : In c (py_lower f) -> In c f \/ (c <> 46 /\ c <> 47).
Proof.
  unfold py_lower. intro H. apply in_map_iff in H as (d & <- & Hd).
  destruct (Z.eqb_spec d 46) as [->|N1]; [left; exact Hd|].
  destruct (Z.eqb_spec d 47) as [->|N2]; [left; exact Hd|].
  right. split; intro E.
  - apply N1. apply Z.eqb_eq. rewrite <- py_lower_char_dot, E. reflexivity.
  - apply N2. apply Z.eqb_eq. rewrite <- py_lower_char_slash, E. reflexivity.
Qed.

Lemma generate_filename_Ok w p fmt n :
  generate_filename w p fmt = Ok n ->
  exists bytes, utf8_encode (hash_input w p) = Some bytes /\
    n = lit "img_" ++ firstn 12 (MD5.hexdigest bytes) ++ lit "." ++ filename_extension fmt.
Proof.
  unfold generate_filename. destruct (utf8_encode (hash_input w p)) as [bytes|]; [|discriminate].
  intro H. injection H as <-. exists bytes. split; reflexivity.
Qed.

Lemma thumbnail_of_generated w p fmt n :
  generate_filename w p fmt = Ok n ->
  fmt <> [] -> ~ In 46 fmt -> ~ In 47 fmt ->
  exists bytes, utf8_encode (hash_input w p) = Some bytes /\
    generate_thumbnail_filename n = lit "thumb_img_" ++ firstn 12 (MD5.hexdigest bytes) ++ lit ".jpg".
Proof.
  intros H Hne Hd Hs. apply generate_filename_Ok in H as (bytes & Hb & ->).
  exists bytes. split; [exact Hb|].
  unfold generate_thumbnail_filename. rewrite path_stem_img.
  - reflexivity.
  - intros c Hc. apply hex_alphabet_no_dot_slash, (proj2 (firstn_hexdigest bytes)), Hc.
  - unfold filename_extension. destruct (pystr_eqb (py_lower fmt) (lit "jpeg")); [discriminate|].
    destruct fmt; [congruence | discriminate].
  - intros c Hc. unfold filename_extension in Hc.
    destruct (pystr_eqb (py_lower fmt) (lit "jpeg")).
    + simpl in Hc. intuition subst; discriminate.
    + apply py_lower_in_dot_slash in Hc as [Hc|Hc]; [|exact Hc].
      split; intro E; subst; contradiction.
Qed.

(** X3: the thumbnail name does not depend on the output format: for two
    formats that are non-empty and contain no '.' or '/', the images of one
    original get names that differ only in the extension, and
    [generate_thumbnail_filename] maps both to the same
    ["thumb_img_<12 hex digits>.jpg"]. *)
Theorem thumbnail_name_shared_across_formats w p f1 f2 n1 n2 :
  generate_filename w p f1 = Ok n1 -> generate_filename w p f2 = Ok n2 ->
  f1 <> [] -> ~ In 46 f1 -> ~ In 47 f1 ->
  f2 <> [] -> ~ In 46 f2 -> ~ In 47 f2 ->
  exists bytes, utf8_encode (hash_input w p) = Some bytes /\
    generate_thumbnail_filename n1 = lit "thumb_img_" ++ firstn 12 (MD5.hexdigest bytes) ++ lit ".jpg" /\
    generate_thumbnail_filename n2 = generate_thumbnail_filename n1.
Proof.
  intros H1 H2 A1 B1 C1 A2 B2 C2.
  destruct (thumbnail_of_generated w p f1 n1 H1 A1 B1 C1) as (b1 & E1 & T1).
  destruct (thumbnail_of_generated w p f2 n2 H2 A2 B2 C2) as (b2 & E2 & T2).
  rewrite E1 in E2. injection E2 as <-.
  exists b1. split; [exact E1|]. split; [exact T1|]. rewrite T1, T2. reflexivity.
Qed.

(** ** What [save_image] writes *)

Lemma pil_save_ok im p sf q ev w w' :
  pil_save im p sf q ev w = (Ok tt, w') ->
  In sf pillow_writers /\ w_cwd w' = w_cwd w /\
  exists sz mt, lookup w' p = Some (mkFile true sz mt (CEncoded sf q im)).
Proof.
  unfold pil_save. destruct (existsb (pystr_eqb sf) pillow_writers) eqn:E; [|discriminate].
  apply existsb_exists in E as (x & Hx & Ex). apply pystr_eqb_eq in Ex. subst x.
  unfold bind, get, write_file.
  destruct (existsb _ _); [discriminate|].
  intro H. injection H as <-. split; [exact Hx|]. split; [reflexivity|].
  do 2 eexists. rewrite lookup_set_files. cbn [assoc]. rewrite pystr_eqb_refl. reflexivity.
Qed.

(** X4: after a successful [save_image], the returned path holds a file of the
    returned size containing the given image, written as JPEG with the
    configured JPEG quality for "jpeg"/"jpg", as WEBP with the WebP quality
    for "webp", and otherwise under the upper-cased format name without a
    quality, which then must be one Pillow can write (all compared
    case-insensitively). *)
Theorem save_image_writes cfg im op ws fmt w sp n w' :
  save_image cfg im op ws fmt w = (Ok (sp, n), w') ->
  exists e, lookup w' sp = Some e /\ fe_is_file e = true /\ fe_size e = n /\
    ((In (py_lower fmt) [lit "jpeg"; lit "jpg"] /\
      fe_content e = CEncoded (lit "JPEG") (Some (jpeg_quality cfg)) im) \/
     (py_lower fmt = lit "webp" /\
      fe_content e = CEncoded (lit "WEBP") (Some (webp_quality cfg)) im) \/
     (~ In (py_lower fmt) [lit "jpeg"; lit "jpg"; lit "webp"] /\ In (py_upper fmt) pillow_writers /\
      fe_content e = CEncoded (py_upper fmt) None im)).
Proof.
  intro H. unfold save_image in H.
  apply bind_ok in H as ([] & w1 & _ & H).
  apply bind_ok in H as (w2 & w3 & Hg & H). injection Hg as <- <-.
  apply bind_ok in H as (fn & w4 & Hf & H). unfold lift in Hf. injection Hf as _ <-.
  cbv zeta in H.
  set (spath := path_join (get_image_store_path cfg ws) fn) in H.
  destruct (existsb (pystr_eqb (py_lower fmt)) [lit "jpeg"; lit "jpg"]) eqn:Ej;
    [|destruct (pystr_eqb (py_lower fmt) (lit "webp")) eqn:Ew];
    apply bind_ok in H as ([] & w5 & Hs & H);
    apply pil_save_ok in Hs as (Hin & _ & sz & mt & Hl);
    unfold bind, get in H; rewrite Hl in H; unfold ret in H;
    injection H as <- <- <-;
    eexists; (split; [exact Hl|]); (split; [reflexivity|]); (split; [reflexivity|]).
  - left. split; [|reflexivity].
    apply existsb_exists in Ej as (x & Hx & Ex). apply pystr_eqb_eq in Ex. subst x. exact Hx.
  - right; left. split; [apply pystr_eqb_eq, Ew | reflexivity].
  - right; right. split; [|split; [exact Hin | reflexivity]].
    intro Hc. destruct Hc as [Hc|[Hc|[Hc|[]]]].
    + cbn [existsb] in Ej. rewrite <- Hc, pystr_eqb_refl in Ej. discriminate.
    + cbn [existsb] in Ej. rewrite <- Hc, pystr_eqb_refl, orb_true_r in Ej. discriminate.
    + rewrite <- Hc, pystr_eqb_refl in Ew. discriminate.
Qed.

(** ** Mode and size of the optimised image *)

Lemma optimize_mode_rgb im : img_mode (optimize_mode im) = ModeRGB.
Proof.
  unfold optimize_mode.
  destruct (img_mode im) eqn:E, (img_transparency im); first [reflexivity | exact E].
Qed.

Lemma resize_mode im s fl im' : resize im s fl = Ok im' -> img_mode im' = img_mode im.
Proof.
  destruct s as [x y]. unfold resize.
  destruct ((x =? img_width im) && (y =? img_height im)); [intro H; injection H as <-; reflexivity|].
  destruct ((x <? 1) || (y <? 1)); [discriminate|]. intro H. injection H as <-. reflexivity.
Qed.

Lemma resize_size im x y fl im' : resize im (x, y) fl = Ok im' -> img_size im' = (x, y).
Proof.
  unfold resize, img_size.
  destruct ((x =? img_width im) && (y =? img_height im)) eqn:E.
  - intro H. injection H as <-. apply andb_true_iff in E as [E1 E2].
    apply Z.eqb_eq in E1, E2. rewrite E1, E2. reflexivity.
  - destruct ((x <? 1) || (y <? 1)); [discriminate|]. intro H. injection H as <-. reflexivity.
Qed.

Lemma optimize_size_Ok cfg im im' :
  optimize_size cfg im = Ok im' ->
  img_mode im' = img_mode im /\
  if (max_width cfg <? img_width im) || (max_height cfg <? img_height im) then
    exists a b, py_truediv (max_width cfg) (img_width im) = Ok a /\
                py_truediv (max_height cfg) (img_height im) = Ok b /\
                img_size im' = (py_int (py_float (img_width im) * py_min a b)%float,
                                py_int (py_float (img_height im) * py_min a b)%float)
  else im' = im.
Proof.
  unfold optimize_size, pdf_max_image_size.
  destruct ((max_width cfg <? img_width im) || (max_height cfg <? img_height im)).
  - destruct (py_truediv (max_width cfg) (img_width im)) as [a|e]; [|discriminate].
    destruct (py_truediv (max_height cfg) (img_height im)) as [b|e]; [|discriminate].
    intro H. split; [eapply resize_mode; exact H|].
    exists a, b. split; [reflexivity|]. split; [reflexivity|]. eapply resize_size. exact H.
  - intro H. injection H as <-. split; reflexivity.
Qed.

Lemma optimize_image_Ok cfg im im' :
  optimize_image cfg im = Ok im' -> optimize_size cfg (optimize_mode im) = Ok im'.
Proof.
  unfold optimize_image. destruct (optimize_size cfg (optimize_mode im)); [|discriminate].
  intro H. injection H as <-. reflexivity.
Qed.

Lemma optimize_image_mode cfg im im' : optimize_image cfg im = Ok im' -> img_mode im' = ModeRGB.
Proof.
  intro H. apply optimize_image_Ok, optimize_size_Ok in H as [H _].
  rewrite H. apply optimize_mode_rgb.
Qed.

(** X5: every image [optimize_image] returns is in RGB mode, whatever the
    mode of its input ("1", "L", "P", "RGB", "RGBA" or "LA"). *)
Theorem optimize_image_rgb cfg im im' : optimize_image cfg im = Ok im' -> img_mode im' = ModeRGB.
Proof. apply optimize_image_mode. Qed.

(** ** The processing recommendations against the processing itself *)

(** X6: whenever [optimize_image] succeeds, [get_processing_recommendations]
    predicts its size: with [needs_resize] the recommended new size is the
    size of the optimised image, and without it the size is unchanged. It
    flags a mode conversion exactly for "RGBA", "LA" and "P" images, although
    the output is RGB for every mode, so "L" and "1" images are converted
    without being flagged. *)
Theorem get_processing_recommendations_consistent cfg im im' :
  optimize_image cfg im = Ok im' ->
  (needs_resize (get_processing_recommendations cfg im) = true ->
     new_size (get_processing_recommendations cfg im) = Some (img_size im')) /\
  (needs_resize (get_processing_recommendations cfg im) = false -> img_size im' = img_size im) /\
  (needs_mode_conversion (get_processing_recommendations cfg im) = true <->
     In (img_mode im) [ModeRGBA; ModeLA; ModeP]) /\
  img_mode im' = ModeRGB.
Proof.
  intro H. pose proof (optimize_image_mode cfg im im' H) as Hm.
  apply optimize_image_Ok, optimize_size_Ok in H as [_ H].
  rewrite optimize_mode_width, optimize_mode_height in H.
  unfold get_processing_recommendations.
  destruct ((max_width cfg <? img_width im) || (max_height cfg <? img_height im)).
  - destruct H as (a & b & Ha & Hb & Hs). rewrite Ha, Hb. cbn.
    split; [intros _; rewrite Hs; reflexivity|]. split; [discriminate|].
    split; [|exact Hm].
    destruct (img_mode im); cbn; intuition discriminate.
  - cbn. split; [discriminate|]. split.
    + intros _. subst im'. unfold img_size. rewrite optimize_mode_width, optimize_mode_height.
      reflexivity.
    + split; [|exact Hm]. destruct (img_mode im); cbn; intuition discriminate.
Qed.

(** ** The CLI's [validate] command *)

Lemma validate_file_pure cfg p w : snd (validate_file cfg p w) = w.
Proof.
  unfold validate_file, bind, get, raise, ret.
  destruct (negb (py_truthy p)); [reflexivity|].
  destruct (lookup w p) as [e|]; [|reflexivity].
  destruct (negb (fe_is_file e)); [reflexivity|].
  destruct (fe_size e =? 0); [reflexivity|].
  destruct (negb (is_supported_format cfg p)); reflexivity.
Qed.

Lemma load_image_format p w im w' : load_image p w = (Ok im, w') -> img_format im = None.
Proof.
  unfold load_image, bind, get, log, ret, raise.
  match goal with
  | |- match ?x with _ => _ end _ = _ -> _ => destruct x as [i|]
  end; [|discriminate].
  intro H. injection H as <- _. reflexivity.
Qed.

(** X7: what [image_service validate] reports about an image it accepts: the
    format is always "Unknown" (the loaded image is a copy, whose format
    PIL leaves unset); width, height and mode are those of the decoded image;
    and, whenever [optimize_image] succeeds on that image, the reported "New
    Size" is exactly the size the processing produces, and an image it does
    not mark for resizing keeps its size. *)
Theorem cli_validate_report cfg p w info w' :
  cli_validate cfg p w = (Ok info, w') ->
  vi_format info = lit "Unknown" /\ vi_file_path info = p /\
  exists im w1, load_image p w = (Ok im, w1) /\
    vi_width info = img_width im /\ vi_height info = img_height im /\
    vi_mode info = mode_name (img_mode im) /\
    (forall im', optimize_image cfg im = Ok im' ->
       (vi_needs_resize info = true -> vi_new_size info = Some (img_size im')) /\
       (vi_needs_resize info = false -> img_size im' = img_size im)).
Proof.
  intro H. unfold cli_validate in H.
  apply try_except_ok_raise in H; [|intros; eexists; reflexivity].
  apply bind_ok in H as ([] & w1 & Hv & H).
  assert (w1 = w) as ->.
  { pose proof (validate_file_pure cfg p w) as P. rewrite Hv in P. exact P. }
  apply bind_ok in H as (im & w2 & Hl & H).
  pose proof (load_image_format p w im w2 Hl) as Hfmt.
  apply bind_ok in H as (w3 & w4 & Hg & H). injection Hg as <- <-.
  apply bind_ok in H as (fs & w5 & _ & H).
  unfold pdf_max_image_size in H. cbv beta iota zeta in H.
  destruct ((max_width cfg <? img_width im) || (max_height cfg <? img_height im)) eqn:Enr.
  - apply bind_ok in H as (nwh & w6 & Hn & H). unfold ret in H. injection H as <- _.
    unfold bind, lift, ret in Hn.
    destruct (py_truediv (max_width cfg) (img_width im)) as [a|] eqn:Ea; [|discriminate].
    destruct (py_truediv (max_height cfg) (img_height im)) as [b|] eqn:Eb; [|discriminate].
    injection Hn as <- _. cbn. rewrite Hfmt.
    split; [reflexivity|]. split; [reflexivity|].
    exists im, w2. split; [exact Hl|]. repeat (split; [reflexivity|]).
    intros im' Ho. apply optimize_image_Ok, optimize_size_Ok in Ho as [_ Ho].
    rewrite optimize_mode_width, optimize_mode_height, Enr in Ho.
    destruct Ho as (a' & b' & Ha' & Hb' & Hs).
    rewrite Ea in Ha'. rewrite Eb in Hb'. injection Ha' as <-. injection Hb' as <-.
    split; [intros _; rewrite Hs; reflexivity | discriminate].
  - unfold ret in H. injection H as <- _. cbn. rewrite Hfmt.
    split; [reflexivity|]. split; [reflexivity|].
    exists im, w2. split; [exact Hl|]. repeat (split; [reflexivity|]).
    intros im' Ho. apply optimize_image_Ok, optimize_size_Ok in Ho as [_ Ho].
    rewrite optimize_mode_width, optimize_mode_height, Enr in Ho.
    split; [discriminate|]. intros _. subst im'. unfold img_size.
    rewrite optimize_mode_width, optimize_mode_height. reflexivity.
Qed.

(** ** The page that [process_image_sync] builds *)

Lemma create_image_metadata_some cfg w im fp x y m :
  img_format im = None ->
  create_image_metadata cfg w im fp (Some (x, y)) = Ok m ->
  width m = x /\ height m = y /\ format m = lit "Unknown" /\ mode m = mode_name (img_mode im).
Proof.
  intros Hf. unfold create_image_metadata, extract_basic_metadata.
  cbn [bm_format bm_mode bm_file_size bm_has_transparency]. rewrite Hf.
  unfold ImageMetadata_new at 1.
  destruct (_ || _ || _).
  - unfold ImageMetadata_new. destruct (_ || _ || _); discriminate.
  - intro H. injection H as <-. repeat split.
Qed.

Lemma process_image_sync_fields cfg fp ws f w page sp tp w' :
  process_image_sync cfg fp ws f w = (Ok (page, sp, tp), w') ->
  page_number page = 1 /\ image_path page = sp /\ thumbnail_path page = tp /\
  format (metadata page) = lit "Unknown" /\
  exists orig opt w1, load_image fp w = (Ok orig, w1) /\ optimize_image cfg orig = Ok opt /\
    mode (metadata page) = mode_name (img_mode orig) /\
    width (metadata page) = img_width opt /\ height (metadata page) = img_height opt.
Proof.
  intro H. unfold process_image_sync in H.
  apply try_except_ok_raise in H; [|intros; eexists; reflexivity].
  apply bind_ok in H as (orig & w1 & Hl & H).
  pose proof (load_image_format fp w orig w1 Hl) as Hfmt.
  apply bind_ok in H as ([] & w2 & _ & H).
  apply bind_ok in H as (opt & w3 & Ho & H). unfold lift in Ho. injection Ho as Ho _.
  cbv zeta in H.
  apply bind_ok in H as ([sp' fs] & w4 & _ & H).
  apply bind_ok in H as (tp' & w5 & _ & H).
  apply bind_ok in H as (w6 & w7 & _ & H).
  apply bind_ok in H as (md & w8 & Hm & H). unfold lift in Hm. injection Hm as Hm _.
  apply bind_ok in H as (pg & w9 & Hp & H). unfold lift, Page_new in Hp.
  destruct ((1 <=? 0) || is_blank sp'); [discriminate|].
  injection Hp as <- _. unfold ret in H. injection H as <- <- <- _.
  unfold img_size in Hm. apply create_image_metadata_some in Hm as (Hw & Hh & Hfm & Hmo);
    [|exact Hfmt].
  cbn. repeat (split; [first [reflexivity | assumption]|]).
  exists orig, opt, w1. repeat split; assumption.
Qed.

(** X8: a page built by [process_image_sync] is page 1, points at the saved
    file and the thumbnail the call returns, and its metadata records the
    mode of the decoded original image, the width and height of the
    optimised image, and the format "Unknown" (the decoded copy has no
    format). *)
Theorem process_image_sync_page cfg fp ws f w page sp tp w' :
  process_image_sync cfg fp ws f w = (Ok (page, sp, tp), w') ->
  page_number page = 1 /\ image_path page = sp /\ thumbnail_path page = tp /\
  format (metadata page) = lit "Unknown" /\
  exists orig opt w1, load_image fp w = (Ok orig, w1) /\ optimize_image cfg orig = Ok opt /\
    mode (metadata page) = mode_name (img_mode orig) /\
    width (metadata page) = img_width opt /\ height (metadata page) = img_height opt.
Proof. apply process_image_sync_fields. Qed.

(** ** Looking pages up *)

(** X9: [get_page] after [update_page_references] finds a page exactly when it
    found one before, and the page it returns has the requested number, the
    same content, image, thumbnail and metadata as before, and the
    document's title and id as references. *)
Theorem get_page_update_page_references d n :
  (get_page (update_page_references d) n = None <-> get_page d n = None) /\
  (forall p, get_page (update_page_references d) n = Some p ->
     page_number p = n /\ document_name p = Some (title d) /\ document_id p = Some (doc_id d) /\
     exists q, get_page d n = Some q /\ text_content p = text_content q /\
       image_path p = image_path q /\ thumbnail_path p = thumbnail_path q /\
       metadata p = metadata q).
Proof.
  unfold get_page, update_page_references. cbn [pages title doc_id].
  induction (pages d) as [|q ps IH]; cbn [map find_page].
  - split; [tauto | discriminate].
  - cbn [page_number]. destruct (Z.eqb_spec (page_number q) n) as [E|E].
    + split; [split; discriminate|].
      intros p Hp. injection Hp as <-. cbn. split; [exact E|]. split; [reflexivity|].
      split; [reflexivity|]. exists q. repeat split.
    + exact IH.
Qed.

(** X10: the document [process] returns has one page, page 1: [get_page(1)]
    returns it, with the document's [file_path] as its image path and the
    document's title (the original file's name) and id as references; every
    other page number gives [None]. *)
Theorem process_document_get_page cfg fp ws f did w d w' :
  process cfg fp ws f did w = (Ok d, w') ->
  title d = path_name fp /\
  (exists p, get_page d 1 = Some p /\ image_path p = file_path d /\
             document_name p = Some (title d) /\ document_id p = Some (doc_id d)) /\
  (forall n, n <> 1 -> get_page d n = None).
Proof.
  intro H. apply process_ok_page in H as (page & sp & tp & w2 & w3 & Hp & Hd).
  apply process_image_sync_fields in Hp as (Hn & _).
  apply create_document_ok in Hd as (_ & meta & doc & Hdoc & ->).
  apply Document_new_ok in Hdoc as (-> & _ & _).
  unfold get_page, update_page_references. cbn. rewrite Hn.
  split; [reflexivity|]. split.
  - eexists. split; [reflexivity|]. cbn. repeat split.
  - intros n Hn1. destruct (Z.eqb_spec 1 n); [congruence | reflexivity].
Qed.

(** ** The REST endpoint's errors and its temporary file *)

Lemma ErrsIn_weaken {A} (P Q : Exc -> Prop) (m : M A) :
  (forall e, P e -> Q e) -> ErrsIn P m -> ErrsIn Q m.
Proof. intros HPQ Hm w e w' H. apply HPQ, (Hm w e w' H). Qed.

Lemma ErrsIn_ret {A} P (a : A) : ErrsIn P (ret a).
Proof. intros w e w' H. discriminate. Qed.

Lemma ErrsIn_get P : ErrsIn P get.
Proof. intros w e w' H. discriminate. Qed.

Lemma ErrsIn_raise {A} (P : Exc -> Prop) e : P e -> ErrsIn (A := A) P (raise e).
Proof. intros He w e' w' H. injection H as <- _. exact He. Qed.

Lemma ErrsIn_remove_file P p : ErrsIn P (remove_file p).
Proof. intros w e w' H. discriminate. Qed.

Lemma ErrsIn_write_file (P : Exc -> Prop) p fe ev : P OSError -> ErrsIn P (write_file p fe ev).
Proof.
  intros HP w e w' H. unfold write_file in H.
  destruct (existsb _ _); [injection H as <- _; exact HP | discriminate].
Qed.

Lemma ErrsIn_bind {A B} P (m : M A) (k : A -> M B) :
  ErrsIn P m -> (forall a, ErrsIn P (k a)) -> ErrsIn P (bind m k).
Proof.
  intros Hm Hk w e w' H. unfold bind in H.
  destruct (m w) as [[a|e0] w1] eqn:E.
  - apply (Hk a w1 e w' H).
  - injection H as -> _. apply (Hm w e w1 E).
Qed.

Lemma ErrsIn_try_finally {A} P (m : M A) (f : M unit) :
  ErrsIn P m -> ErrsIn P f -> ErrsIn P (try_finally m f).
Proof.
  intros Hm Hf w e w' H. unfold try_finally in H.
  destruct (m w) as [r w1] eqn:E.
  destruct (f w1) as [[u|e0] w2] eqn:F.
  - injection H as -> _. apply (Hm w e w1 E).
  - injection H as -> _. apply (Hf w1 e w2 F).
Qed.

Lemma ErrsIn_process cfg p ws f did :
  ErrsIn (fun e => exists msg, e = ImageProcessingError msg) (process cfg p ws f did).
Proof.
  intros w e w' H. apply (process_err_ipe cfg p ws f did w). rewrite H. reflexivity.
Qed.

Ltac errs_step :=
  match goal with
  | |- ErrsIn _ (bind _ _) => apply ErrsIn_bind; [|intro]
  | |- ErrsIn _ (try_finally _ _) => apply ErrsIn_try_finally
  | |- ErrsIn _ (let _ := _ in _) => cbv zeta
  | |- ErrsIn _ (if ?b then _ else _) => destruct b
  | |- ErrsIn _ (match ?x with _ => _ end) => destruct x
  | |- ErrsIn _ (raise _) => apply ErrsIn_raise; cbn; first [exact I | reflexivity]
  | |- ErrsIn _ (write_file _ _ _) => apply ErrsIn_write_file; exact I
  | |- ErrsIn _ (ret _) => apply ErrsIn_ret
  | |- ErrsIn _ get => apply ErrsIn_get
  | |- ErrsIn _ (remove_file _) => apply ErrsIn_remove_file
  | |- ErrsIn _ (process _ _ _ _ _) =>
      eapply ErrsIn_weaken; [|apply ErrsIn_process];
      intros ? [? ->]; exact I
  end.

(** X11: the endpoint [POST /process_image/] fails only with an HTTP error of
    status 400 (bad request), 422 (the image could not be processed) or 500
    (anything else); and an upload whose reported size is a non-zero number
    always gets 500, since the size check reads [config.max_file_size], which
    the configuration does not have, and nothing is written. *)
Theorem api_process_image_errors cfg up ws f did w :
  (forall e, fst (api_process_image cfg up ws f did w) = Err e ->
     e = HTTPException 400 \/ e = HTTPException 422 \/ e = HTTPException 500) /\
  (forall fn n, up_filename up = Some fn -> fn <> [] -> up_size up = Some n -> n <> 0 ->
     api_process_image cfg up ws f did w = (Err (HTTPException 500), w)).
Proof.
  split.
  - intros e. unfold api_process_image, try_except.
    match goal with
    | |- fst (match ?m w with _ => _ end) = _ -> _ =>
        assert (HB : ErrsIn api_body_error m) by (repeat errs_step);
        destruct (m w) as [[r|e0] w1] eqn:E
    end; [cbn; discriminate|].
    pose proof (HB w e0 w1 E) as He0.
    destruct e0; cbn; intro H; injection H as <-; auto.
    cbn in He0. subst. auto.
  - intros fn n Hf Hne Hs Hn. unfold api_process_image, try_except, bind, raise, ret.
    rewrite Hf, Hs. destruct fn as [|c fn']; [congruence|]. cbn [py_truthy negb].
    apply Z.eqb_neq in Hn. rewrite Hn. reflexivity.
Qed.

Lemma assoc_filter_self {A} k (l : list (pystr * A)) :
  assoc k (filter (fun '(k', _) => negb (pystr_eqb k' k)) l) = None.
Proof.
  induction l as [|[k' v] l IH]; [reflexivity|]. cbn [filter].
  destruct (pystr_eqb k' k) eqn:E; cbn [negb].
  - exact IH.
  - cbn [assoc]. destruct (pystr_eqb k k') eqn:E'; [|exact IH].
    apply pystr_eqb_eq in E'. subst. rewrite pystr_eqb_refl in E. discriminate.
Qed.

Lemma try_finally_cleanup {A} (m : M A) p w :
  lookup (snd (try_finally m
                 (w' <- get ;;
                  match lookup w' p with Some _ => remove_file p | None => ret tt end) w)) p
  = None.
Proof.
  unfold try_finally. destruct (m w) as [r w1].
  unfold bind, get. destruct (lookup w1 p) eqn:E.
  - unfold remove_file. cbn [snd]. rewrite lookup_set_files. apply assoc_filter_self.
  - cbn. exact E.
Qed.

Lemma try_except_snd {A} (m : M A) h w :
  (forall e w', snd (h e w') = w') -> snd (try_except m h w) = snd (m w).
Proof.
  intro Hh. unfold try_except. destruct (m w) as [[a|e] w']; [reflexivity|apply Hh].
Qed.

(** X12: the endpoint never leaves its temporary upload file behind: if no
    file existed at the temporary path before the call, none exists after
    it, whether processing succeeded or failed. *)
Theorem api_process_image_removes_temp cfg up ws f did w fn :
  up_filename up = Some fn ->
  lookup w (w_tmp_name w ++ py_lower (path_suffix fn)) = None ->
  lookup (snd (api_process_image cfg up ws f did w)) (w_tmp_name w ++ py_lower (path_suffix fn))
  = None.
Proof.
  intros Hf Hl. unfold api_process_image.
  rewrite try_except_snd by (intros e w'; destruct e; reflexivity).
  rewrite Hf. cbv iota.
  set (t := w_tmp_name w ++ py_lower (path_suffix fn)) in *.
  destruct (negb (py_truthy fn)); [exact Hl|].
  unfold bind at 1.
  match goal with
  | |- context [match ?m w with (r, w') => _ end] => destruct (m w) as [[[]|e] w1] eqn:E1
  end.
  2:{ cbv iota; cbn [snd]. destruct (up_size up) as [n|]; [destruct (n =? 0)|]; unfold ret, raise in E1; congruence. }
  assert (w1 = w) as ->.
  { destruct (up_size up) as [n|]; [destruct (n =? 0)|]; unfold ret, raise in E1; congruence. }
  unfold bind at 1. destruct (in_formats f); [|exact Hl].
  unfold ret, bind at 1, get. cbv beta iota. fold t.
  unfold bind at 1, write_file.
  destruct (existsb _ _); [exact Hl|].
  apply try_finally_cleanup.
Qed.

(** ** What [get_storage_info] counts *)

Lemma In_undup x l : In x (undup l) <-> In x l.
Proof.
  induction l as [|y l IH]; cbn [undup]; [tauto|].
  destruct (existsb (pystr_eqb y) l) eqn:E.
  - rewrite IH. split; [intro H; right; exact H|]. intros [<-|H]; [|exact H].
    apply existsb_exists in E as (z & Hz & Ez). apply pystr_eqb_eq in Ez. subst. exact Hz.
  - cbn [In]. rewrite IH. tauto.
Qed.

Lemma In_glob w dir pat k :
  In k (glob w dir pat) <->
  In k (map fst (w_files w)) /\ path_parent k = absolute w dir /\ fnmatch pat (path_name k) = true.
Proof.
  unfold glob. rewrite In_undup, filter_In, andb_true_iff, pystr_eqb_eq. tauto.
Qed.

Lemma fnmatch_star pat s :
  fnmatch (42 :: pat) s = fnmatch pat s || match s with [] => false | _ :: s' => fnmatch (42 :: pat) s' end.
Proof. destruct s; reflexivity. Qed.

Lemma fnmatch_lit c pat s :
  c <> 42 ->
  fnmatch (c :: pat) s = match s with [] => false | c' :: s' => ((c =? 63) || (c =? c')) && fnmatch pat s' end.
Proof. intro H. cbn [fnmatch]. apply Z.eqb_neq in H. rewrite H. reflexivity. Qed.

Lemma fnmatch_star_suffix pat s :
  fnmatch (42 :: pat) s = true -> exists s1 s2, s = s1 ++ s2 /\ fnmatch pat s2 = true.
Proof.
  induction s as [|c s IH]; rewrite fnmatch_star; intro H.
  - exists [], []. rewrite orb_false_r in H. split; [reflexivity | exact H].
  - apply orb_true_iff in H as [H|H].
    + exists [], (c :: s). split; [reflexivity | exact H].
    + apply IH in H as (s1 & s2 & -> & H). exists (c :: s1), s2. split; [reflexivity | exact H].
Qed.

(** Every character of the pattern other than ['*'] and ['?'] occurs in a
    name the pattern matches. *)
Lemma fnmatch_literal_in pat : forall s c,
  fnmatch pat s = true -> In c pat -> c <> 42 -> c <> 63 -> In c s.
Proof.
  induction pat as [|a pat IH]; intros s c H Hin H42 H63; [destruct Hin|].
  destruct (Z.eq_dec a 42) as [->|Ha].
  - apply fnmatch_star_suffix in H as (s1 & s2 & -> & H).
    destruct Hin as [<-|Hin]; [congruence|].
    apply in_or_app. right. exact (IH s2 c H Hin H42 H63).
  - rewrite fnmatch_lit in H by exact Ha. destruct s as [|c' s]; [discriminate|].
    apply andb_true_iff in H as [Hc H]. destruct Hin as [<-|Hin].
    + apply Z.eqb_neq in H63. rewrite H63 in Hc. apply Z.eqb_eq in Hc. left. symmetry. exact Hc.
    + right. exact (IH s c H Hin H42 H63).
Qed.

Lemma fnmatch_image_glob_brace s : fnmatch image_glob s = true -> In 125 s.
Proof.
  intro H. apply (fnmatch_literal_in image_glob s 125 H); [|discriminate|discriminate].
  unfold image_glob. cbn. repeat (first [left; reflexivity | right]).
Qed.

Lemma fnmatch_star_app pat x s : fnmatch pat s = true -> fnmatch (42 :: pat) (x ++ s) = true.
Proof.
  intro H. induction x as [|c x IH]; cbn [app]; rewrite fnmatch_star.
  - rewrite H. reflexivity.
  - rewrite IH, orb_true_r. reflexivity.
Qed.

Lemma fnmatch_thumbnail_name s : fnmatch thumbnail_glob (lit "thumb_" ++ s ++ lit ".jpg") = true.
Proof. exact (fnmatch_star_app (lit ".jpg") s (lit ".jpg") eq_refl). Qed.

Definition slash_or_brace (c : Z) : bool := (c =? 47) || (c =? 125).

Lemma py_lower_char_sb c : slash_or_brace (py_lower_char c) = slash_or_brace c.
Proof.
  unfold slash_or_brace, py_lower_char.
  destruct (Z.leb_spec 65 c), (Z.leb_spec c 90); cbn [andb]; try reflexivity.
  destruct (Z.eqb_spec (c + 32) 47), (Z.eqb_spec (c + 32) 125), (Z.eqb_spec c 47), (Z.eqb_spec c 125);
    cbn; first [reflexivity | lia].
Qed.

Lemma py_upper_char_sb c : slash_or_brace (py_upper_char c) = slash_or_brace c.
Proof.
  unfold slash_or_brace, py_upper_char.
  destruct (Z.leb_spec 97 c), (Z.leb_spec c 122); cbn [andb]; try reflexivity.
  destruct (Z.eqb_spec (c - 32) 47), (Z.eqb_spec (c - 32) 125), (Z.eqb_spec c 47), (Z.eqb_spec c 125);
    cbn; first [reflexivity | lia].
Qed.

Lemma existsb_sb_map f s :
  (forall c, slash_or_brace (f c) = slash_or_brace c) ->
  existsb slash_or_brace (map f s) = existsb slash_or_brace s.
Proof.
  intro Hf. induction s as [|c s IH]; [reflexivity|]. cbn [map existsb]. rewrite Hf, IH. reflexivity.
Qed.

(** The name [save_image] gives a file and the path it returns. *)
Lemma save_image_name cfg im op ws fmt w sp n w' :
  save_image cfg im op ws fmt w = (Ok (sp, n), w') ->
  exists w2 fn e, generate_filename w2 op fmt = Ok fn /\
    sp = path_join (get_image_store_path cfg ws) fn /\ lookup w' sp = Some e /\
    (In (py_lower fmt) [lit "jpeg"; lit "jpg"; lit "webp"] \/ In (py_upper fmt) pillow_writers).
Proof.
  intro H. unfold save_image in H.
  apply bind_ok in H as ([] & w1 & _ & H).
  apply bind_ok in H as (w2 & w3 & Hg & H). injection Hg as <- <-.
  apply bind_ok in H as (fn & w4 & Hf & H). unfold lift in Hf. injection Hf as Hf <-.
  cbv zeta in H.
  destruct (existsb (pystr_eqb (py_lower fmt)) [lit "jpeg"; lit "jpg"]) eqn:Ej;
    [|destruct (pystr_eqb (py_lower fmt) (lit "webp")) eqn:Ew];
    apply bind_ok in H as ([] & w5 & Hs & H);
    apply pil_save_ok in Hs as (Hin & _ & sz & mt & Hl);
    unfold bind, get in H; rewrite Hl in H; unfold ret in H;
    injection H as <- <- <-;
    exists w1, fn; eexists; (split; [exact Hf|]); (split; [reflexivity|]); (split; [exact Hl|]).
  - left. apply existsb_exists in Ej as (x & Hx & Ex). apply pystr_eqb_eq in Ex. subst x.
    destruct Hx as [Hx|[Hx|[]]]; rewrite <- Hx; cbn; tauto.
  - left. apply pystr_eqb_eq in Ew. rewrite Ew. cbn; tauto.
  - right. exact Hin.
Qed.

Lemma save_image_name_clean cfg im op ws fmt w sp n w' :
  save_image cfg im op ws fmt w = (Ok (sp, n), w') ->
  exists fn e, sp = path_join (get_image_store_path cfg ws) fn /\ lookup w' sp = Some e /\
    existsb slash_or_brace fn = false.
Proof.
  intro H. apply save_image_name in H as (w2 & fn & e & Hf & -> & Hl & Hfmt).
  exists fn, e. split; [reflexivity|]. split; [exact Hl|].
  apply generate_filename_Ok in Hf as (bytes & _ & ->).
  rewrite !existsb_app.
  assert (Hh : existsb slash_or_brace (firstn 12 (MD5.hexdigest bytes)) = false).
  { destruct (existsb slash_or_brace _) eqn:E; [|reflexivity].
    apply existsb_exists in E as (c & Hc & Ec).
    apply (proj2 (firstn_hexdigest bytes)) in Hc.
    assert (Ha : forallb (fun c => negb (slash_or_brace c)) MD5.hex_alphabet = true)
      by (vm_compute; reflexivity).
    rewrite forallb_forall in Ha. specialize (Ha c Hc). rewrite Ec in Ha. discriminate. }
  rewrite Hh. cbn [existsb]. unfold filename_extension.
  destruct (pystr_eqb (py_lower fmt) (lit "jpeg")); [reflexivity|].
  unfold py_lower. rewrite existsb_sb_map by apply py_lower_char_sb.
  destruct Hfmt as [Hfmt|Hfmt].
  - rewrite <- (existsb_sb_map py_lower_char fmt py_lower_char_sb). fold (py_lower fmt).
    destruct Hfmt as [<-|[<-|[<-|[]]]]; reflexivity.
  - rewrite <- (existsb_sb_map py_upper_char fmt py_upper_char_sb). fold (py_upper fmt).
    assert (Hw : forallb (fun s => negb (existsb slash_or_brace s)) pillow_writers = true)
      by (vm_compute; reflexivity).
    rewrite forallb_forall in Hw. specialize (Hw _ Hfmt).
    destruct (existsb slash_or_brace (py_upper fmt)); [discriminate | reflexivity].
Qed.

Lemma get_image_store_path_nonempty cfg ws : get_image_store_path cfg ws <> [].
Proof.
  unfold get_image_store_path, path_join. destruct (get_workspace_path cfg ws); discriminate.
Qed.

Lemma existsb_sb_slash s : existsb slash_or_brace s = false -> existsb (Z.eqb 47) s = false.
Proof.
  induction s as [|c s IH]; [reflexivity|]. cbn [existsb]. unfold slash_or_brace at 1.
  intro H. apply orb_false_iff in H as [H1 H2]. apply orb_false_iff in H1 as [H1 _].
  rewrite Z.eqb_sym, H1, (IH H2). reflexivity.
Qed.

(** X13: [get_storage_info]'s image count never counts an image that
    [save_image] stored: the file lies directly in the image store, but its
    name cannot match ["img_*.{webp,jpg,jpeg,png}"], which [Path.glob] takes
    literally (no brace expansion), so only names containing a '}' would be
    counted. *)
Theorem saved_image_not_counted cfg im op ws fmt w sp n w' :
  save_image cfg im op ws fmt w = (Ok (sp, n), w') ->
  lookup w' sp <> None /\
  path_parent (absolute w' sp) = absolute w' (get_image_store_path cfg ws) /\
  forall w2 dir, ~ In (absolute w' sp) (glob w2 dir image_glob).
Proof.
  intro H. apply save_image_name_clean in H as (fn & e & -> & Hl & Hc).
  unfold path_join at 2 3. rewrite absolute_app by apply get_image_store_path_nonempty.
  change slash with [47]. cbn [app].
  unfold path_parent at 1.
  rewrite split_last_slash_app by (apply existsb_sb_slash, Hc).
  split; [rewrite Hl; discriminate|]. split; [reflexivity|].
  intros w2 dir Hin. apply In_glob in Hin as (_ & _ & Hm).
  unfold path_name in Hm. rewrite split_last_slash_app in Hm by (apply existsb_sb_slash, Hc).
  apply fnmatch_image_glob_brace in Hm. cbn [snd] in Hm.
  apply (existsb_false_forall _ _ Hc) in Hm. discriminate.
Qed.

Lemma assoc_in_keys {A} k (l : list (pystr * A)) v : assoc k l = Some v -> In k (map fst l).
Proof.
  induction l as [|[k' v'] l IH]; cbn [assoc]; [discriminate|].
  destruct (pystr_eqb k k') eqn:E; intro H.
  - apply pystr_eqb_eq in E. subst. left. reflexivity.
  - right. exact (IH H).
Qed.

Lemma pystr_eqb_app_neq a b : b <> [] -> pystr_eqb a (a ++ b) = false.
Proof.
  intro Hb. destruct (pystr_eqb a (a ++ b)) eqn:E; [|reflexivity].
  apply pystr_eqb_eq, (f_equal (@length Z)) in E. rewrite length_app in E.
  destruct b; [congruence|]. cbn [length] in E. lia.
Qed.

Lemma pil_save_other im p sf q ev w w' p' :
  pil_save im p sf q ev w = (Ok tt, w') ->
  pystr_eqb (absolute w p') (absolute w p) = false -> lookup w' p' = lookup w p'.
Proof.
  unfold pil_save. destruct (existsb (pystr_eqb sf) pillow_writers); [|discriminate].
  unfold bind, get, write_file. destruct (existsb _ _); [discriminate|].
  intros H Hne. injection H as <-. rewrite lookup_set_files. cbn [assoc]. rewrite Hne. reflexivity.
Qed.

Lemma create_thumbnail_some cfg im fn ws w t w' :
  create_thumbnail cfg im fn ws w = (Ok (Some t), w') ->
  t = path_join (get_thumbnail_path cfg ws) (generate_thumbnail_filename fn) /\
  lookup w' t <> None /\ lookup w' (get_thumbnail_path cfg ws) <> None.
Proof.
  unfold create_thumbnail, create_thumbnail_try. destruct (negb (enable_thumbnails cfg)); [discriminate|].
  unfold try_except.
  match goal with
  | |- match ?x with _ => _ end = _ -> _ => destruct x as [[r|e] w1] eqn:E
  end; intro H; [|discriminate].
  injection H as -> ->.
  apply bind_ok in E as ([] & w2 & Hm & E).
  apply bind_ok in E as (th & w3 & Hth & E). unfold lift in Hth. injection Hth as _ <-.
  cbv zeta in E.
  apply bind_ok in E as ([] & w4 & Hs & E). unfold ret in E. injection E as <- <-.
  split; [reflexivity|].
  pose proof Hs as Hs'.
  apply pil_save_ok in Hs as (_ & _ & sz & mt & Hl). split; [rewrite Hl; discriminate|].
  rewrite (pil_save_other _ _ _ _ _ _ _ _ Hs').
  - apply mkdir_p_ok in Hm. exact Hm.
  - unfold path_join at 1. rewrite absolute_app by apply get_thumbnail_path_nonempty.
    apply pystr_eqb_app_neq. discriminate.
Qed.

Lemma thumbnail_name_path w cfg ws n :
  path_name (absolute w (path_join (get_thumbnail_path cfg ws) (generate_thumbnail_filename n)))
  = generate_thumbnail_filename n.
Proof.
  unfold path_join at 1. rewrite absolute_app by apply get_thumbnail_path_nonempty.
  unfold path_name. change slash with [47]. cbn [app].
  rewrite split_last_slash_app by apply thumbnail_filename_no_slash. reflexivity.
Qed.

(** X14: by contrast, every thumbnail [create_thumbnail] writes is counted:
    after it returns a path, [get_storage_info] reports a thumbnail count,
    and the thumbnail is among the files matched by ["thumb_*.jpg"] in the
    thumbnail directory. *)
Theorem created_thumbnail_counted cfg im fn ws w t w' :
  create_thumbnail cfg im fn ws w = (Ok (Some t), w') ->
  (exists k, si_thumbnail_count (get_storage_info cfg w' ws) = Some k) /\
  In (absolute w' t) (glob w' (get_thumbnail_path cfg ws) thumbnail_glob).
Proof.
  intro H. apply create_thumbnail_some in H as (-> & Ht & Hd). split.
  - unfold get_storage_info, path_exists. cbn [si_thumbnail_count].
    destruct (lookup w' (get_thumbnail_path cfg ws)); [eexists; reflexivity | contradiction].
  - apply In_glob. split; [|split].
    + destruct (lookup w' _) as [e|] eqn:E; [|contradiction].
      exact (assoc_in_keys _ _ _ E).
    + apply thumbnail_parent.
    + rewrite thumbnail_name_path. unfold generate_thumbnail_filename.
      apply fnmatch_thumbnail_name.
Qed.

(** ** [copy_original_file] *)





(** ** Reading the configuration by attribute name *)

(** X16: [GET /formats] and [GET /config] fail with HTTP 500 for every
    configuration, and [image_service formats] exits with code 1 after
    printing one table row per supported extension: they read
    [config.max_file_size] and [config.image_quality], attributes
    [ImageServiceConfig] does not have. *)
Theorem config_readers_fail cfg :
  api_get_supported_formats cfg = Err (HTTPException 500) /\
  api_get_service_config cfg = Err (HTTPException 500) /\
  snd (cli_formats cfg) = Err (TyperExit 1) /\
  map fst (fst (cli_formats cfg)) = supported_extensions cfg.
Proof.
  split; [reflexivity|]. split; [reflexivity|]. split; [reflexivity|].
  unfold cli_formats. cbn [fst]. rewrite map_map. apply map_id.
Qed.

(** ** Concrete runs of the properties above *)

Lemma ensure_directories_idempotent_witness :
  exists w', ensure_directories default_config None photo_world = (Ok tt, w') /\
    lookup w' (get_image_store_path default_config None) <> None /\
    lookup w' (get_thumbnail_path default_config None) <> None /\
    ensure_directories default_config None w' = (Ok tt, w').
Proof.
  destruct (ensure_directories default_config None photo_world) as [[[]|e] w'] eqn:E.
  - exists w'. split; [reflexivity|]. exact (ensure_directories_idempotent _ _ _ _ E).
  - vm_compute in E. discriminate.
Defined.

Lemma thumbnail_name_shared_across_formats_witness :
  exists n1 n2,
    generate_filename photo_world (lit "photo.png") (lit "webp") = Ok n1 /\
    generate_filename photo_world (lit "photo.png") (lit "JPEG") = Ok n2 /\
    exists bytes, utf8_encode (hash_input photo_world (lit "photo.png")) = Some bytes /\
      generate_thumbnail_filename n1 =
        lit "thumb_img_" ++ firstn 12 (MD5.hexdigest bytes) ++ lit ".jpg" /\
      generate_thumbnail_filename n2 = generate_thumbnail_filename n1.
Proof.
  destruct (generate_filename photo_world (lit "photo.png") (lit "webp")) as [n1|e] eqn:E1;
    [|vm_compute in E1; discriminate].
  destruct (generate_filename photo_world (lit "photo.png") (lit "JPEG")) as [n2|e] eqn:E2;
    [|vm_compute in E2; discriminate].
  exists n1, n2. split; [reflexivity|]. split; [reflexivity|].
  apply (thumbnail_name_shared_across_formats photo_world (lit "photo.png") (lit "webp") (lit "JPEG")
           n1 n2 E1 E2); first [discriminate | vm_compute; intuition discriminate].
Defined.

Lemma save_image_writes_witness :
  exists sp n w', save_image default_config (rgb_image 640 480) (lit "photo.png") None (lit "webp")
                    photo_world = (Ok (sp, n), w') /\
  exists e, lookup w' sp = Some e /\ fe_is_file e = true /\ fe_size e = n /\
    ((In (py_lower (lit "webp")) [lit "jpeg"; lit "jpg"] /\
      fe_content e = CEncoded (lit "JPEG") (Some (jpeg_quality default_config)) (rgb_image 640 480)) \/
     (py_lower (lit "webp") = lit "webp" /\
      fe_content e = CEncoded (lit "WEBP") (Some (webp_quality default_config)) (rgb_image 640 480)) \/
     (~ In (py_lower (lit "webp")) [lit "jpeg"; lit "jpg"; lit "webp"] /\
      In (py_upper (lit "webp")) pillow_writers /\
      fe_content e = CEncoded (py_upper (lit "webp")) None (rgb_image 640 480))).
Proof.
  destruct (save_image default_config (rgb_image 640 480) (lit "photo.png") None (lit "webp")
              photo_world) as [[[sp n]|e] w'] eqn:E; [|vm_compute in E; discriminate].
  exists sp, n, w'. split; [reflexivity|]. exact (save_image_writes _ _ _ _ _ _ _ _ _ E).
Defined.

Lemma optimize_image_rgb_witness :
  exists im', optimize_image default_config (rgb_image 3000 1000) = Ok im' /\
    img_mode im' = ModeRGB.
Proof.
  destruct (optimize_image default_config (rgb_image 3000 1000)) as [im'|e] eqn:E;
    [|vm_compute in E; discriminate].
  exists im'. split; [reflexivity|]. exact (optimize_image_rgb _ _ _ E).
Defined.

Lemma get_processing_recommendations_consistent_witness :
  exists im', optimize_image default_config (rgb_image 3000 1000) = Ok im' /\
  (needs_resize (get_processing_recommendations default_config (rgb_image 3000 1000)) = true ->
     new_size (get_processing_recommendations default_config (rgb_image 3000 1000)) =
     Some (img_size im')) /\
  (needs_resize (get_processing_recommendations default_config (rgb_image 3000 1000)) = false ->
     img_size im' = img_size (rgb_image 3000 1000)) /\
  (needs_mode_conversion (get_processing_recommendations default_config (rgb_image 3000 1000)) = true <->
     In (img_mode (rgb_image 3000 1000)) [ModeRGBA; ModeLA; ModeP]) /\
  img_mode im' = ModeRGB.
Proof.
  destruct (optimize_image default_config (rgb_image 3000 1000)) as [im'|e] eqn:E;
    [|vm_compute in E; discriminate].
  exists im'. split; [reflexivity|]. exact (get_processing_recommendations_consistent _ _ _ E).
Defined.

Lemma cli_validate_report_witness :
  exists info w', cli_validate default_config (lit "photo.png") photo_world = (Ok info, w') /\
  vi_format info = lit "Unknown" /\ vi_file_path info = lit "photo.png" /\
  exists im w1, load_image (lit "photo.png") photo_world = (Ok im, w1) /\
    vi_width info = img_width im /\ vi_height info = img_height im /\
    vi_mode info = mode_name (img_mode im) /\
    (forall im', optimize_image default_config im = Ok im' ->
       (vi_needs_resize info = true -> vi_new_size info = Some (img_size im')) /\
       (vi_needs_resize info = false -> img_size im' = img_size im)).
Proof.
  destruct (cli_validate default_config (lit "photo.png") photo_world) as [[info|e] w'] eqn:E;
    [|vm_compute in E; discriminate].
  exists info, w'. split; [reflexivity|]. exact (cli_validate_report _ _ _ _ _ E).
Defined.

Lemma process_image_sync_page_witness :
  exists page sp tp w',
    process_image_sync default_config (lit "photo.png") None None photo_world =
      (Ok (page, sp, tp), w') /\
  page_number page = 1 /\ image_path page = sp /\ thumbnail_path page = tp /\
  format (metadata page) = lit "Unknown" /\
  exists orig opt w1, load_image (lit "photo.png") photo_world = (Ok orig, w1) /\
    optimize_image default_config orig = Ok opt /\
    mode (metadata page) = mode_name (img_mode orig) /\
    width (metadata page) = img_width opt /\ height (metadata page) = img_height opt.
Proof.
  destruct (process_image_sync default_config (lit "photo.png") None None photo_world)
    as [[[[page sp] tp]|e] w'] eqn:E; [|vm_compute in E; discriminate].
  exists page, sp, tp, w'. split; [reflexivity|]. exact (process_image_sync_page _ _ _ _ _ _ _ _ _ E).
Defined.

Lemma process_document_get_page_witness :
  exists d w', process default_config (lit "photo.png") None None None photo_world = (Ok d, w') /\
  title d = path_name (lit "photo.png") /\
  (exists p, get_page d 1 = Some p /\ image_path p = file_path d /\
             document_name p = Some (title d) /\ document_id p = Some (doc_id d)) /\
  (forall n, n <> 1 -> get_page d n = None).
Proof.
  destruct (process default_config (lit "photo.png") None None None photo_world)
    as [[d|e] w'] eqn:E; [|vm_compute in E; discriminate].
  exists d, w'. split; [reflexivity|]. exact (process_document_get_page _ _ _ _ _ _ _ _ E).
Defined.

Lemma api_process_image_removes_temp_witness :
  up_filename scan_upload = Some (lit "scan.png") /\
  lookup photo_world (w_tmp_name photo_world ++ py_lower (path_suffix (lit "scan.png"))) = None /\
  lookup (snd (api_process_image default_config scan_upload None (Some (lit "webp")) None photo_world))
    (w_tmp_name photo_world ++ py_lower (path_suffix (lit "scan.png"))) = None.
Proof.
  split; [reflexivity|]. split; [vm_compute; reflexivity|].
  apply api_process_image_removes_temp; [reflexivity | vm_compute; reflexivity].
Defined.

Lemma saved_image_not_counted_witness :
  exists sp n w', save_image default_config (rgb_image 640 480) (lit "photo.png") None (lit "webp")
                    photo_world = (Ok (sp, n), w') /\
  lookup w' sp <> None /\
  path_parent (absolute w' sp) = absolute w' (get_image_store_path default_config None) /\
  forall w2 dir, ~ In (absolute w' sp) (glob w2 dir image_glob).
Proof.
  destruct (save_image default_config (rgb_image 640 480) (lit "photo.png") None (lit "webp")
              photo_world) as [[[sp n]|e] w'] eqn:E; [|vm_compute in E; discriminate].
  exists sp, n, w'. split; [reflexivity|]. exact (saved_image_not_counted _ _ _ _ _ _ _ _ _ E).
Defined.

Lemma created_thumbnail_counted_witness :
  exists t w', create_thumbnail default_config (rgb_image 640 480) (lit "img_0123456789ab.webp") None
                 photo_world = (Ok (Some t), w') /\
  (exists k, si_thumbnail_count (get_storage_info default_config w' None) = Some k) /\
  In (absolute w' t) (glob w' (get_thumbnail_path default_config None) thumbnail_glob).
Proof.
  destruct (create_thumbnail default_config (rgb_image 640 480) (lit "img_0123456789ab.webp") None
              photo_world) as [[[t|]|e] w'] eqn:E; [|vm_compute in E; discriminate ..].
  exists t, w'. split; [reflexivity|]. exact (created_thumbnail_counted _ _ _ _ _ _ _ E).
Defined.

